(** * django-autotranslate: the translator services of [autotranslate/services.py]

    The module defines an abstract [BaseTranslatorService] and two concrete
    services, [GoSlateTranslatorService] (the free web backend) and
    [GoogleAPITranslatorService] (the paid Google API).  The services are thin
    adapters: they check the shape of their argument with [assert
    isinstance(...)], hand the request to a backend client and post-process
    the reply.

    The embedding is shallow.  Python values are an inductive type, mutable
    objects (lists, sets, generators) live in a store addressed by
    references, so that aliasing of the accumulator of the Google service is
    visible, and every method is a function in a state-and-exception monad
    over that store and a log of the interactions with the outside world.
    The backend clients themselves are not part of the module: they are the
    fields of the class [Backend], about which nothing is assumed unless a
    theorem says so. *)

From stdpp Require Import base option list strings gmap.

Open Scope string_scope.
Open Scope list_scope.

Set Warnings "-register-all".

(** ** Python values and objects *)

(** References are addresses in the store. *)
Abbreviation loc := nat (only parsing).

(** Immutable values are carried directly; a mutable object is a reference
    into the store.  Dictionaries are only ever read by this module (they are
    the replies of the Google client and the credentials descriptor), so they
    are kept as values, with string keys as in a JSON document.  A handle is
    an object of a foreign library (a module, a client, decoded credentials)
    that the module passes around without looking inside. *)
Inductive pyval : Type :=
| PyNone
| PyBool (b : bool)
| PyInt (n : Z)
| PyStr (s : string)
| PyTuple (items : list pyval)
| PyDict (entries : gmap string pyval)
| PyHandle (id : nat)
| PyRef (l : loc).

Inductive obj : Type :=
| OList (items : list pyval)      (* [list]: a MutableSequence *)
| OSet (items : list pyval)       (* [set]: Iterable, not a Sequence *)
| OGen (pending : list pyval).    (* generator: Iterable, consumed by iteration *)

Inductive exn : Type :=
| NotImplementedError (msg : string)
| AssertionError (msg : string)
| ImproperlyConfigured (msg : string)
| ImportError (msg : string)
| TypeError (msg : string)
| KeyError (key : string)
| AttributeError (msg : string)
| SystemError (msg : string)
| BackendError (msg : string).

(** What the module does to the outside world, in the order it does it. *)
Inductive event : Type :=
| GoslateNew
| GoslateTranslate (service text target_language source_language : pyval)
| CredentialsFromInfo (info : pyval)
| ClientNew (credentials : pyval)
| ClientTranslate (client values target_language source_language : pyval).

Record world : Type := World {
  heap : list obj;
  trace : list event
}.

Definition log (e : event) (w : world) : world :=
  {| heap := heap w; trace := trace w ++ [e] |}.

Definition with_heap (h : list obj) (w : world) : world :=
  {| heap := h; trace := trace w |}.

(** ** The monad of Python computations

    A computation runs in a [world] and ends in a value or in a raised
    exception; effects performed before a [raise] persist. *)

Definition Py (A : Type) : Type := world → (exn + A) * world.

Definition raise {A} (e : exn) : Py A := λ w, (inl e, w).

#[global] Instance Py_ret : MRet Py := λ A x w, (inr x, w).

#[global] Instance Py_bind : MBind Py := λ A B f m w,
  match m w with
  | (inr x, w') => f x w'
  | (inl e, w') => (inl e, w')
  end.

(** [assert cond, msg], with assertions enabled (the interpreter's default). *)
Definition assert (cond : bool) (msg : string) : Py unit :=
  if cond then mret tt else raise (AssertionError msg).

Definition get_world : Py world := λ w, (inr w, w).

(** ** The store *)

Definition alloc (o : obj) : Py loc := λ w,
  (inr (length (heap w)), with_heap (heap w ++ [o]) w).

Definition store (l : loc) (o : obj) : Py unit := λ w,
  (inr tt, with_heap (<[l := o]> (heap w)) w).

(** ** The built-in operations the module uses *)

(** The three [isinstance] tests.  The module is written for interpreters
    that have [six] and the abstract classes under [collections] (Python 2.7
    to 3.9); strings are the values of [six.string_types]. *)

(** [isinstance(v, six.string_types)] *)
Definition is_string (v : pyval) : bool :=
  match v with PyStr _ => true | _ => false end.

(** [isinstance(v, collections.Iterable)] *)
Definition is_Iterable (h : list obj) (v : pyval) : bool :=
  match v with
  | PyStr _ | PyTuple _ | PyDict _ => true
  | PyRef l => bool_decide (is_Some (h !! l))
  | PyNone | PyBool _ | PyInt _ | PyHandle _ => false
  end.

(** [isinstance(v, collections.MutableSequence)] *)
Definition is_MutableSequence (h : list obj) (v : pyval) : bool :=
  match v with
  | PyRef l => match h !! l with Some (OList _) => true | _ => false end
  | _ => false
  end.

(** Truth value of an object, as tested by [if], [not] and [assert]. *)
Definition truthy (h : list obj) (v : pyval) : bool :=
  match v with
  | PyNone => false
  | PyBool b => b
  | PyInt n => negb (n =? 0)%Z
  | PyStr s => negb (String.eqb s "")
  | PyTuple items => negb (bool_decide (items = []))
  | PyDict entries => negb (bool_decide (entries = ∅))
  | PyHandle _ => true
  | PyRef l =>
      match h !! l with
      | Some (OList items) | Some (OSet items) => negb (bool_decide (items = []))
      | Some (OGen _) => true
      | None => false
      end
  end.

Fixpoint characters (s : string) : list pyval :=
  match s with
  | EmptyString => []
  | String c s' => PyStr (String c EmptyString) :: characters s'
  end.

(** The items a [for] clause over [v] is going to draw, in order.  (The keys
    of a dictionary come in the order of the map, which stands for whatever
    order the interpreter picks.) *)
Definition items_of (v : pyval) : Py (list pyval) := λ w,
  match v with
  | PyStr s => (inr (characters s), w)
  | PyTuple items => (inr items, w)
  | PyDict entries => (inr (PyStr <$> (map_to_list entries).*1), w)
  | PyRef l =>
      match heap w !! l with
      | Some (OList items) | Some (OSet items) | Some (OGen items) => (inr items, w)
      | None => (inl (SystemError "dangling reference"), w)
      end
  | PyNone | PyBool _ | PyInt _ | PyHandle _ =>
      (inl (TypeError "object is not iterable"), w)
  end.

(** Drawing an item: a generator forgets it and keeps only [rest]; the other
    iterables are not changed by being read. *)
Definition drawn (v : pyval) (rest : list pyval) : Py unit := λ w,
  match v with
  | PyRef l =>
      match heap w !! l with
      | Some (OGen _) => store l (OGen rest) w
      | _ => (inr tt, w)
      end
  | _ => (inr tt, w)
  end.

Fixpoint for_each (body : pyval → Py pyval) (v : pyval) (items : list pyval)
  : Py (list pyval) :=
  match items with
  | [] => mret []
  | x :: rest =>
      drawn v rest;;
      y ← body x;
      ys ← for_each body v rest;
      mret (y :: ys)
  end.

(** [[body(x) for x in v]]: the items are drawn one at a time, so a body
    that raises leaves the rest of a generator pending.  The list built is
    returned as a Rocq list; the caller decides where it is stored. *)
Definition comprehension (body : pyval → Py pyval) (v : pyval) : Py (list pyval) :=
  items ← items_of v;
  for_each body v items.

(** One full iteration over [v], what a caller does with a returned sequence. *)
Definition iterate (v : pyval) : Py (list pyval) := comprehension mret v.

(** [d.get(key)]: the value under [key], [None] when the key is missing. *)
Definition dict_get (d : pyval) (key : string) : Py pyval :=
  match d with
  | PyDict entries => mret (default PyNone (entries !! key))
  | _ => raise (AttributeError "object has no attribute 'get'")
  end.

(** [d[key]]: the value under [key], [KeyError] when the key is missing. *)
Definition subscript (d : pyval) (key : string) : Py pyval :=
  match d with
  | PyDict entries =>
      match entries !! key with
      | Some v => mret v
      | None => raise (KeyError key)
      end
  | _ => raise (TypeError "indices must be integers")
  end.

(** [acc.extend], the attribute looked up before the arguments of the call
    are evaluated: the bound method of the list at [l]; no other object of
    the store has it. *)
Definition getattr_extend (l : loc) : Py loc := λ w,
  match heap w !! l with
  | Some (OList _) => (inr l, w)
  | _ => (inl (AttributeError "object has no attribute 'extend'"), w)
  end.

(** [acc.extend(new)] on the list object at [l]. *)
Definition extend (l : loc) (new : list pyval) : Py unit := λ w,
  match heap w !! l with
  | Some (OList items) => store l (OList (items ++ new)) w
  | _ => (inl (AttributeError "object has no attribute 'extend'"), w)
  end.

(** ** The collaborators outside the module

    Everything [services.py] imports and calls but does not define.  A call
    to a foreign function sees the whole world and answers with a value or an
    exception and with the store as it leaves it. *)

Definition foreign : Type := world → (exn + pyval) * list obj.

Class Backend : Type := {
  (** [autotranslate.compat.goslate]: the module, or [None] when the package
      is not installed *)
  goslate : pyval;
  (** whether [import] finds the module of that dotted name *)
  importable : string → bool;
  (** the attributes of [django.conf.settings] *)
  settings : gmap string pyval;
  (** [goslate.Goslate()] *)
  goslate_Goslate : foreign;
  (** [service.translate(text, target_language, source_language)] *)
  goslate_translate : pyval → pyval → pyval → pyval → foreign;
  (** [service_account.Credentials.from_service_account_info(info)] *)
  from_service_account_info : pyval → foreign;
  (** [translate.Client(credentials=credentials)] *)
  translate_Client : pyval → foreign;
  (** [client.translate(values, target_language=..., source_language=...)] *)
  client_translate : pyval → pyval → pyval → pyval → foreign
}.

(** A foreign call is logged, then answered by the collaborator. *)
Definition call (e : event) (f : foreign) : Py pyval := λ w,
  let w' := log e w in
  let '(r, h) := f w' in (r, with_heap h w').

Definition import_ `{Backend} (name : string) : Py unit :=
  if importable name then mret tt else raise (ImportError name).

(** ** The services

    A required parameter of a method is an argument of type [pyval]; a
    parameter with a default is an [option pyval], [None] standing for an
    argument the caller left out. *)

Module BaseTranslatorService.

Record t : Type := {}.

Definition source_language_default : pyval := PyStr "en".
Definition optimized_default : pyval := PyBool true.

Definition translate_string (self : t) (text target_language : pyval)
    (source_language : option pyval) : Py pyval :=
  let source_language := default source_language_default source_language in
  raise (NotImplementedError ".translate_string() must be overridden.").

Definition translate_strings (self : t) (strings target_language : pyval)
    (source_language optimized : option pyval) : Py pyval :=
  let source_language := default source_language_default source_language in
  let optimized := default optimized_default optimized in
  raise (NotImplementedError ".translate_strings() must be overridden.").

End BaseTranslatorService.

Module GoSlateTranslatorService.
Section methods.
Context `{Backend}.

Record t : Type := { service : pyval }.

Definition source_language_default : pyval := PyStr "en".
Definition optimized_default : pyval := PyBool true.

Definition __init__ : Py t :=
  w ← get_world;
  assert (truthy (heap w) goslate)
    "`GoSlateTranslatorService` requires `goslate` package";;
  service ← call GoslateNew goslate_Goslate;
  mret {| service := service |}.

Definition translate_string (self : t) (text target_language : pyval)
    (source_language : option pyval) : Py pyval :=
  let source_language := default source_language_default source_language in
  assert (is_string text) "`text` should a string literal";;
  call (GoslateTranslate (service self) text target_language source_language)
       (goslate_translate (service self) text target_language source_language).

Definition translate_strings (self : t) (strings target_language : pyval)
    (source_language optimized : option pyval) : Py pyval :=
  let source_language := default source_language_default source_language in
  let optimized := default optimized_default optimized in
  w ← get_world;
  assert (is_Iterable (heap w) strings)
    "`strings` should a iterable containing string_types";;
  translations ←
    call (GoslateTranslate (service self) strings target_language source_language)
         (goslate_translate (service self) strings target_language source_language);
  w ← get_world;
  if truthy (heap w) optimized then mret translations
  else
    items ← comprehension mret translations;
    l ← alloc (OList items);
    mret (PyRef l).

End methods.
End GoSlateTranslatorService.

Module GoogleAPITranslatorService.
Section methods.
Context `{Backend}.

Record t : Type := {
  translate_client : pyval;
  translated_strings : loc
}.

Definition target_language_default : pyval := PyStr "en".
Definition source_language_default : pyval := PyStr "es".
Definition strings_source_language_default : pyval := PyStr "en".
Definition optimized_default : pyval := PyBool true.

Definition setting_name : string :=
  "AUTOTRANSLATE_GOOGLE_TRANSLATOR_SERVICE_CREDENTIALS_JSON".

Definition __init__ : Py t :=
  import_ "google.cloud.translate_v2";;
  import_ "google.oauth2.service_account";;
  let json_acct_info := default (PyDict ∅) (settings !! setting_name) in
  w ← get_world;
  if negb (truthy (heap w) json_acct_info) then
    raise (ImproperlyConfigured
      "ImproperlyConfigured AUTOTRANSLATE_GOOGLE_TRANSLATOR_SERVICE_CREDENTIALS_JSON setting")
  else
    credentials ←
      call (CredentialsFromInfo json_acct_info)
           (from_service_account_info json_acct_info);
    client ← call (ClientNew credentials) (translate_Client credentials);
    acc ← alloc (OList []);
    mret {| translate_client := client; translated_strings := acc |}.

Definition translate_string (self : t) (text : pyval)
    (target_language source_language : option pyval) : Py pyval :=
  let target_language := default target_language_default target_language in
  let source_language := default source_language_default source_language in
  assert (is_string text) "`text` should a string literal";;
  translation ←
    call (ClientTranslate (translate_client self) text target_language source_language)
         (client_translate (translate_client self) text target_language source_language);
  dict_get translation "translatedText".

Definition translate_strings (self : t) (strings target_language : pyval)
    (source_language optimized : option pyval) : Py pyval :=
  let source_language := default strings_source_language_default source_language in
  let optimized := default optimized_default optimized in
  w ← get_world;
  assert (is_MutableSequence (heap w) strings)
    "`strings` should be a sequence containing string_types";;
  response ←
    call (ClientTranslate (translate_client self) strings target_language source_language)
         (client_translate (translate_client self) strings target_language source_language);
  extend_ ← getattr_extend (translated_strings self);
  new ← comprehension (λ translation, subscript translation "translatedText") response;
  extend extend_ new;;
  mret (PyRef (translated_strings self)).

End methods.
End GoogleAPITranslatorService.

(** ** A stand-in backend

    A deterministic backend to run the services on: a four-word dictionary,
    a web client that answers a batch with a generator and an API client that
    answers a batch with a list of reply documents.  [cfg] is the content of
    the settings and [reply] builds the reply document of the API client. *)

Definition stub_dictionary (s : string) : string :=
  if String.eqb s "hello" then "bonjour"
  else if String.eqb s "world" then "monde"
  else if String.eqb s "hi" then "salut"
  else if String.eqb s "bye" then "au revoir"
  else s.

Definition stub_word (v : pyval) : pyval :=
  match v with
  | PyStr s => PyStr (stub_dictionary s)
  | _ => v
  end.

Definition stub_reply (v : pyval) : pyval :=
  PyDict (<["translatedText" := stub_word v]> (<["input" := v]> ∅)).

Definition stub_reply_bare (v : pyval) : pyval :=
  PyDict (<["input" := v]> ∅).

Definition stub_batch (single : pyval → pyval) (wrap : list pyval → obj)
    (values : pyval) : foreign := λ w,
  match values with
  | PyStr _ => (inr (single values), heap w)
  | _ =>
      match items_of values w with
      | (inr items, _) =>
          (inr (PyRef (length (heap w))), heap w ++ [wrap (single <$> items)])
      | (inl e, _) => (inl e, heap w)
      end
  end.

Definition stub_backend (cfg : gmap string pyval) (reply : pyval → pyval) : Backend := {|
  goslate := PyHandle 0;
  importable := λ _, true;
  settings := cfg;
  goslate_Goslate := λ w, (inr (PyHandle 1), heap w);
  goslate_translate := λ _ text _ _, stub_batch stub_word OGen text;
  from_service_account_info := λ _ w, (inr (PyHandle 2), heap w);
  translate_Client := λ _ w, (inr (PyHandle 3), heap w);
  client_translate := λ _ values _ _, stub_batch reply OList values
|}.

Definition stub_credentials : gmap string pyval :=
  {[ "AUTOTRANSLATE_GOOGLE_TRANSLATOR_SERVICE_CREDENTIALS_JSON" :=
       PyDict {[ "type" := PyStr "service_account" ]} ]}.

Definition empty_world : world := {| heap := []; trace := [] |}.

(** Instances as the constructors on the stand-in backend leave them. *)
Definition stub_free : GoSlateTranslatorService.t :=
  {| GoSlateTranslatorService.service := PyHandle 1 |}.

Definition stub_paid : GoogleAPITranslatorService.t :=
  {| GoogleAPITranslatorService.translate_client := PyHandle 3;
     GoogleAPITranslatorService.translated_strings := 0 |}.

(** A world with the accumulator of [stub_paid] and two argument lists. *)
Definition paid_world : world :=
  {| heap := [OList []; OList [PyStr "hi"]; OList [PyStr "bye"]]; trace := [] |}.

(** A world with one argument list, a generator and a set. *)
Definition free_world : world :=
  {| heap := [OList [PyStr "hello"; PyStr "world"];
              OGen [PyStr "hello"]; OSet [PyStr "hello"]];
     trace := [] |}.

(** An API reply document that lacks the translation of ["bye"]. *)
Definition stub_reply_patchy (v : pyval) : pyval :=
  match v with
  | PyStr s => if String.eqb s "bye" then stub_reply_bare v else stub_reply v
  | _ => stub_reply v
  end.

(** A host on which neither [goslate] nor the Google libraries are installed. *)
Definition stub_host_without_packages : Backend := {|
  goslate := PyNone;
  importable := λ _, false;
  settings := stub_credentials;
  goslate_Goslate := λ w, (inr (PyHandle 1), heap w);
  goslate_translate := λ _ text _ _, stub_batch stub_word OGen text;
  from_service_account_info := λ _ w, (inr (PyHandle 2), heap w);
  translate_Client := λ _ w, (inr (PyHandle 3), heap w);
  client_translate := λ _ values _ _, stub_batch stub_reply OList values
|}.

(** A world where the accumulator of [stub_paid] already holds a
    translation, with one argument list. *)
Definition used_world : world :=
  {| heap := [OList [PyStr "salut"]; OList [PyStr "hi"; PyStr "bye"]];
     trace := [] |}.

(** A host without the Google libraries and without the credentials
    setting. *)
Definition stub_host_unconfigured : Backend := {|
  goslate := PyNone;
  importable := λ _, false;
  settings := ∅;
  goslate_Goslate := λ w, (inr (PyHandle 1), heap w);
  goslate_translate := λ _ text _ _, stub_batch stub_word OGen text;
  from_service_account_info := λ _ w, (inr (PyHandle 2), heap w);
  translate_Client := λ _ w, (inr (PyHandle 3), heap w);
  client_translate := λ _ values _ _, stub_batch stub_reply OList values
|}.

(** A backend that minds the languages: it knows English to French and
    Spanish to English, and refuses every other pair. *)
Definition stub_spanish (s : string) : string :=
  if String.eqb s "hola" then "hello"
  else if String.eqb s "adios" then "goodbye"
  else s.

Definition stub_pair (target source : pyval) : option (string → string) :=
  match target, source with
  | PyStr t, PyStr s =>
      if String.eqb t "fr" && String.eqb s "en" then Some stub_dictionary
      else if String.eqb t "en" && String.eqb s "es" then Some stub_spanish
      else None
  | _, _ => None
  end.

Definition stub_translated (dictionary : string → string) (v : pyval) : pyval :=
  match v with
  | PyStr s => PyStr (dictionary s)
  | _ => v
  end.

Definition stub_document (dictionary : string → string) (v : pyval) : pyval :=
  PyDict (<["translatedText" := stub_translated dictionary v]>
            (<["input" := v]> ∅)).

Definition stub_strict (single : (string → string) → pyval → pyval)
    (wrap : list pyval → obj) (values target source : pyval) : foreign := λ w,
  match stub_pair target source with
  | Some dictionary => stub_batch (single dictionary) wrap values w
  | None => (inl (BackendError "unsupported language pair"), heap w)
  end.

Definition stub_backend_strict : Backend := {|
  goslate := PyHandle 0;
  importable := λ _, true;
  settings := stub_credentials;
  goslate_Goslate := λ w, (inr (PyHandle 1), heap w);
  goslate_translate := λ _ text target source,
    stub_strict stub_translated OGen text target source;
  from_service_account_info := λ _ w, (inr (PyHandle 2), heap w);
  translate_Client := λ _ w, (inr (PyHandle 3), heap w);
  client_translate := λ _ values target source,
    stub_strict stub_document OList values target source
|}.

(** Running [m] and then [k] on its result, for closed examples. *)
Definition and_then {A B} (m : Py A) (k : A → Py B) : Py B := m ≫= k.

(** ** Vocabulary of the statements *)

(** [v] is a generator of the store [h]. *)
Definition generator (h : list obj) (v : pyval) : Prop :=
  ∃ l pending, v = PyRef l ∧ h !! l = Some (OGen pending).

(** [item] is a dictionary whose entry [key] is [text]. *)
Definition has_field (key : string) (item text : pyval) : Prop :=
  ∃ entries, item = PyDict entries ∧ entries !! key = Some text.

(** Every list of [w] is there, with the same items, in [w']. *)
Definition keeps_lists (w w' : world) : Prop :=
  ∀ l items, heap w !! l = Some (OList items) → heap w' !! l = Some (OList items).

Section vocabulary.
Context `{Backend}.
Import GoogleAPITranslatorService.

(** The backend does not write into the object at [a]. *)
Definition backend_spares (a : loc) : Prop :=
  ∀ client values target source w,
    is_Some (heap w !! a) →
    (client_translate client values target source w).2 !! a = heap w !! a.

(** [new] are the ["translatedText"] fields of the reply the client gives
    to the request for [strings] made in world [w], in the order of the
    reply. *)
Definition received (self : t) (strings target_language : pyval)
    (source_language : option pyval) (w : world) (new : list pyval) : Prop :=
  let source := default strings_source_language_default source_language in
  let request :=
    ClientTranslate (translate_client self) strings target_language source in
  ∃ response h items,
    client_translate (translate_client self) strings target_language source
      (log request w) = (inr response, h)
    ∧ items_of response (with_heap h (log request w))
      = (inr items, with_heap h (log request w))
    ∧ Forall2 (has_field "translatedText") items new.

(** The web backend does not write into the object at [a]. *)
Definition web_backend_spares (a : loc) : Prop :=
  ∀ service text target source w,
    is_Some (heap w !! a) →
    (goslate_translate service text target source w).2 !! a = heap w !! a.

(** What a caller can ask of a Google service. *)
Inductive invocation : Type :=
| TranslateString (text : pyval) (target_language source_language : option pyval)
| TranslateStrings (strings target_language : pyval)
    (source_language optimized : option pyval).

Definition serve (self : t) (q : invocation) : Py pyval :=
  match q with
  | TranslateString text target_language source_language =>
      translate_string self text target_language source_language
  | TranslateStrings strings target_language source_language optimized =>
      translate_strings self strings target_language source_language optimized
  end.

(** The world after a caller has made the calls [qs] one after the other,
    carrying on after a call that raised. *)
Definition after_calls (self : t) (qs : list invocation) (w : world) : world :=
  foldl (λ u q, (serve self q u).2) w qs.

End vocabulary.

(** * Properties *)

Ltac py_run :=
  repeat (unfold mbind, Py_bind, mret, Py_ret, raise, assert, get_world,
            call in *; cbn [fst snd heap trace log with_heap] in *).

(** ** The abstract service *)

(** C3: whatever the arguments and the state of the world, both methods of
    the abstract [BaseTranslatorService] raise [NotImplementedError] (and do
    nothing else). *)
Theorem base_methods_not_implemented
    (self : BaseTranslatorService.t) (text strings target_language : pyval)
    (source_language optimized : option pyval) (w : world) :
  BaseTranslatorService.translate_string self text target_language source_language w
    = (inl (NotImplementedError ".translate_string() must be overridden."), w)
  ∧ BaseTranslatorService.translate_strings self strings target_language
      source_language optimized w
    = (inl (NotImplementedError ".translate_strings() must be overridden."), w).
Proof. split; reflexivity. Qed.

(** ** Preconditions on the arguments *)

Section preconditions.
Context `{Backend}.

(** C4: a [text] that is not a string makes [translate_string] of either
    concrete service raise [AssertionError] in an unchanged world: the log
    of foreign calls is as it was, so no backend call has been made. *)
Theorem translate_string_rejects_non_string
    (free : GoSlateTranslatorService.t) (paid : GoogleAPITranslatorService.t)
    (text target_language : pyval) (target source_language : option pyval)
    (w : world) :
  is_string text = false →
  GoSlateTranslatorService.translate_string free text target_language
      source_language w
    = (inl (AssertionError "`text` should a string literal"), w)
  ∧ GoogleAPITranslatorService.translate_string paid text target
      source_language w
    = (inl (AssertionError "`text` should a string literal"), w).
Proof.
  intros Hs.
  unfold GoSlateTranslatorService.translate_string,
    GoogleAPITranslatorService.translate_string.
  py_run. rewrite Hs. split; reflexivity.
Qed.

(** C5: [translate_strings] of the Google service raises [AssertionError]
    on anything that is not a mutable sequence, and [translate_strings] of
    the GoSlate service on anything that is not iterable; in both cases the
    world, and with it the log of foreign calls, is unchanged. *)
Theorem translate_strings_rejects_wrong_shape
    (free : GoSlateTranslatorService.t) (paid : GoogleAPITranslatorService.t)
    (not_a_sequence not_iterable target_language : pyval)
    (source_language optimized : option pyval) (w : world) :
  is_MutableSequence (heap w) not_a_sequence = false →
  is_Iterable (heap w) not_iterable = false →
  GoogleAPITranslatorService.translate_strings paid not_a_sequence
      target_language source_language optimized w
    = (inl (AssertionError
              "`strings` should be a sequence containing string_types"), w)
  ∧ GoSlateTranslatorService.translate_strings free not_iterable
      target_language source_language optimized w
    = (inl (AssertionError
              "`strings` should a iterable containing string_types"), w).
Proof.
  intros Hseq Hit.
  unfold GoSlateTranslatorService.translate_strings,
    GoogleAPITranslatorService.translate_strings.
  py_run. rewrite Hseq, Hit. split; reflexivity.
Qed.

End preconditions.

(** ** The Google service *)

Section google.
Context `{Backend}.
Import GoogleAPITranslatorService.

(** C6: when the two Google libraries can be imported and the credentials
    setting is absent, or present with an empty (false) value, [__init__]
    raises [ImproperlyConfigured] with a message that contains the name of
    the setting, in an unchanged world: no credentials were decoded, no
    client was built, no foreign call was made. *)
Theorem init_without_credentials (w : world) :
  importable "google.cloud.translate_v2" = true →
  importable "google.oauth2.service_account" = true →
  (settings !! setting_name = None
   ∨ ∃ v, settings !! setting_name = Some v ∧ truthy (heap w) v = false) →
  ∃ msg before after,
    __init__ w = (inl (ImproperlyConfigured msg), w)
    ∧ msg = before +:+ setting_name +:+ after.
Proof.
  intros Ht Hs Hcfg.
  exists "ImproperlyConfigured AUTOTRANSLATE_GOOGLE_TRANSLATOR_SERVICE_CREDENTIALS_JSON setting",
    "ImproperlyConfigured ", " setting".
  split; [|reflexivity].
  unfold __init__, import_. rewrite Ht, Hs. py_run.
  destruct Hcfg as [-> | (v & -> & Hv)]; cbn [default from_option id].
  - reflexivity.
  - rewrite Hv. reflexivity.
Qed.

(** C8: [translate_strings] of the Google service does not look at
    [optimized]: two calls that differ in nothing else return the same
    value and leave the same world. *)
Theorem translate_strings_ignores_optimized
    (self : t) (strings target_language : pyval)
    (source_language optimized optimized' : option pyval) (w : world) :
  translate_strings self strings target_language source_language optimized w
  = translate_strings self strings target_language source_language optimized' w.
Proof. reflexivity. Qed.

(** What [translate_string] does with a string: one application of the
    client to the text and the two languages, given or defaulted, in the
    world where the request has been logged; an exception of the client is
    passed on, an answer is read with [.get("translatedText")]. *)
Lemma translate_string_runs
    (self : t) (text : pyval) (target_language source_language : option pyval)
    (w : world) :
  let target := default target_language_default target_language in
  let source := default source_language_default source_language in
  let asked := ClientTranslate (translate_client self) text target source in
  let answer :=
    client_translate (translate_client self) text target source (log asked w) in
  let answered := with_heap answer.2 (log asked w) in
  is_string text = true →
  translate_string self text target_language source_language w
  = match answer.1 with
    | inl e => (inl e, answered)
    | inr translation => dict_get translation "translatedText" answered
    end.
Proof.
  intros target source asked answer answered Hs.
  unfold translate_string. py_run. rewrite Hs.
  fold target source asked. subst answered. fold answer.
  destruct answer as [[e|translation] h]; [reflexivity|].
  cbn [fst snd]. destruct (dict_get translation _ _) as [[e|r] u]; reflexivity.
Qed.

(** C9: the defaults of [translate_string] are [target_language="en"] and
    [source_language="es"], where the abstract service has
    [source_language="en"]; a call with only a (string) [text] is the call
    with those two values.  It logs one request carrying them and applies the
    client to exactly the text, ["en"] and ["es"]: what the call returns or
    raises is what the client answers to that, read with
    [.get("translatedText")]. *)
Theorem translate_string_defaults (self : t) (text : pyval) (w : world) :
  let asked :=
    ClientTranslate (translate_client self) text (PyStr "en") (PyStr "es") in
  let answer :=
    client_translate (translate_client self) text (PyStr "en") (PyStr "es")
      (log asked w) in
  let answered := with_heap answer.2 (log asked w) in
  is_string text = true →
  target_language_default = PyStr "en"
  ∧ source_language_default = PyStr "es"
  ∧ BaseTranslatorService.source_language_default = PyStr "en"
  ∧ translate_string self text None None w
    = translate_string self text (Some (PyStr "en")) (Some (PyStr "es")) w
  ∧ trace (translate_string self text None None w).2 = trace w ++ [asked]
  ∧ translate_string self text None None w
    = match answer.1 with
      | inl e => (inl e, answered)
      | inr translation => dict_get translation "translatedText" answered
      end.
Proof.
  intros asked answer answered Hs.
  pose proof (translate_string_runs self text None None w Hs) as Hrun.
  cbn [default from_option id] in Hrun.
  unfold target_language_default, source_language_default in Hrun.
  fold asked in Hrun. fold answer in Hrun. fold answered in Hrun.
  do 4 (split; [reflexivity|]). split; [|exact Hrun].
  rewrite Hrun. subst answered.
  destruct answer as [[e|translation] h]; [reflexivity|].
  cbn [fst snd]. destruct translation; reflexivity.
Qed.

(** C10: when the client answers a string [text] with a dictionary,
    [translate_string] returns [None] if the dictionary has no
    ["translatedText"] entry, without raising, and returns exactly the
    entry's value if it has one. *)
Theorem translate_string_reads_translatedText
    (self : t) (text : pyval) (target_language source_language : option pyval)
    (w : world) (entries : gmap string pyval) (h : list obj) :
  let target := default target_language_default target_language in
  let source := default source_language_default source_language in
  let request := ClientTranslate (translate_client self) text target source in
  is_string text = true →
  client_translate (translate_client self) text target source (log request w)
    = (inr (PyDict entries), h) →
  (entries !! "translatedText" = None →
   translate_string self text target_language source_language w
     = (inr PyNone, with_heap h (log request w)))
  ∧ (∀ v, entries !! "translatedText" = Some v →
     translate_string self text target_language source_language w
       = (inr v, with_heap h (log request w))).
Proof.
  intros target source request Hs Hreply.
  assert (Hrun : translate_string self text target_language source_language w
            = (inr (default PyNone (entries !! "translatedText")),
               with_heap h (log request w))).
  { unfold translate_string. py_run. rewrite Hs.
    fold target source request. rewrite Hreply. reflexivity. }
  split.
  - intros Hnone. rewrite Hrun, Hnone. reflexivity.
  - intros v Hsome. rewrite Hrun, Hsome. reflexivity.
Qed.

End google.

(** ** Iteration *)

Lemma with_heap_same (w : world) : with_heap (heap w) w = w.
Proof. destruct w; reflexivity. Qed.

Lemma drawn_static (v : pyval) (rest : list pyval) (w : world) :
  ¬ generator (heap w) v → drawn v rest w = (inr tt, w).
Proof.
  intros Hg. destruct v; try reflexivity. cbn.
  destruct (heap w !! l) as [[| |pending]|] eqn:Hl; try reflexivity.
  exfalso. apply Hg. exists l, pending. auto.
Qed.

Lemma for_each_mret_static (v : pyval) (items : list pyval) (w : world) :
  ¬ generator (heap w) v → for_each mret v items w = (inr items, w).
Proof.
  intros Hg. induction items as [|x rest IH]; [reflexivity|].
  cbn [for_each]. py_run. rewrite drawn_static by assumption.
  py_run. rewrite IH. reflexivity.
Qed.

Lemma for_each_mret_generator (g : loc) (items cur : list pyval) (w : world) :
  heap w !! g = Some (OGen cur) →
  for_each mret (PyRef g) items w
  = (inr items,
     match items with
     | [] => w
     | _ :: _ => with_heap (<[g := OGen []]> (heap w)) w
     end).
Proof.
  revert cur w. induction items as [|x rest IH]; intros cur w Hg; [reflexivity|].
  cbn [for_each]. py_run. cbn [drawn]. rewrite Hg. unfold store. py_run.
  pose proof (lookup_lt_Some _ _ _ Hg) as Hlt.
  rewrite (IH rest) by (cbn; apply list_lookup_insert_eq; exact Hlt).
  destruct rest; cbn [heap with_heap]; [reflexivity|].
  rewrite list_insert_insert_eq. reflexivity.
Qed.

(** A list can be iterated any number of times: the items come out and the
    world stays as it is. *)
Lemma iterate_list (l : loc) (items : list pyval) (w : world) :
  heap w !! l = Some (OList items) → iterate (PyRef l) w = (inr items, w).
Proof.
  intros Hl. unfold iterate, comprehension. py_run. cbn [items_of]. rewrite Hl.
  apply for_each_mret_static. intros (l' & pending & [= <-] & Hg). congruence.
Qed.

(** A generator hands out what it has pending and is exhausted afterwards. *)
Lemma iterate_generator (g : loc) (pending : list pyval) (w : world) :
  heap w !! g = Some (OGen pending) →
  iterate (PyRef g) w = (inr pending, with_heap (<[g := OGen []]> (heap w)) w).
Proof.
  intros Hg. unfold iterate, comprehension. py_run. cbn [items_of]. rewrite Hg.
  rewrite (for_each_mret_generator g pending pending) by assumption.
  destruct pending; [|reflexivity].
  rewrite list_insert_id by assumption. rewrite with_heap_same. reflexivity.
Qed.

(** ** The GoSlate service *)

Section goslate.
Context `{Backend}.
Import GoSlateTranslatorService.

(** The two ways [translate_strings] ends when the backend answers with the
    generator [g]: by returning [g], or by draining [g] into a new list. *)
Lemma translate_strings_optimized
    (self : t) (strings target_language : pyval)
    (source_language optimized : option pyval)
    (w : world) (g : loc) (h : list obj) :
  let source := default source_language_default source_language in
  let request := GoslateTranslate (service self) strings target_language source in
  is_Iterable (heap w) strings = true →
  goslate_translate (service self) strings target_language source (log request w)
    = (inr (PyRef g), h) →
  truthy h (default optimized_default optimized) = true →
  translate_strings self strings target_language source_language optimized w
    = (inr (PyRef g), with_heap h (log request w)).
Proof.
  intros source request Hit Hreply Hopt.
  unfold translate_strings. py_run. rewrite Hit.
  fold source request. rewrite Hreply. cbn [heap with_heap].
  rewrite Hopt. reflexivity.
Qed.

Lemma translate_strings_not_optimized
    (self : t) (strings target_language : pyval)
    (source_language optimized : option pyval)
    (w : world) (g : loc) (pending : list pyval) (h : list obj) :
  let source := default source_language_default source_language in
  let request := GoslateTranslate (service self) strings target_language source in
  is_Iterable (heap w) strings = true →
  goslate_translate (service self) strings target_language source (log request w)
    = (inr (PyRef g), h) →
  h !! g = Some (OGen pending) →
  truthy h (default optimized_default optimized) = false →
  translate_strings self strings target_language source_language optimized w
    = (inr (PyRef (length h)),
       with_heap (<[g := OGen []]> h ++ [OList pending]) (log request w)).
Proof.
  intros source request Hit Hreply Hg Hopt.
  unfold translate_strings. py_run. rewrite Hit.
  fold source request. rewrite Hreply. cbn [heap with_heap].
  rewrite Hopt.
  pose proof (iterate_generator g pending (with_heap h (log request w)) Hg)
    as Hdrain.
  unfold iterate, mret, Py_ret in Hdrain. rewrite Hdrain.
  unfold alloc. cbn [heap with_heap]. rewrite length_insert. reflexivity.
Qed.

(** Whatever [optimized] is, the service hands the translations over in
    the order the backend produced them; if that is the order of the
    request, so is what the caller reads. *)
Lemma translate_strings_keeps_order
    (translates : pyval → pyval → Prop) (inputs : list pyval)
    (self : t) (strings target_language : pyval)
    (source_language optimized : option pyval)
    (w : world) (g : loc) (pending : list pyval) (h : list obj) :
  let source := default source_language_default source_language in
  let request := GoslateTranslate (service self) strings target_language source in
  is_Iterable (heap w) strings = true →
  goslate_translate (service self) strings target_language source (log request w)
    = (inr (PyRef g), h) →
  h !! g = Some (OGen pending) →
  Forall2 translates inputs pending →
  ∃ r w' returned w'',
    translate_strings self strings target_language source_language optimized w
      = (inr r, w')
    ∧ iterate r w' = (inr returned, w'')
    ∧ Forall2 translates inputs returned.
Proof.
  intros source request Hit Hreply Hg Horder.
  destruct (truthy h (default optimized_default optimized)) eqn:Hopt.
  - eexists _, _, pending, _. split; [|split; [|exact Horder]].
    + apply (translate_strings_optimized self strings target_language
               source_language optimized w g h Hit Hreply Hopt).
    + apply iterate_generator. exact Hg.
  - eexists _, _, pending, _. split; [|split; [|exact Horder]].
    + apply (translate_strings_not_optimized self strings target_language
               source_language optimized w g pending h Hit Hreply Hg Hopt).
    + apply iterate_list. cbn.
      rewrite lookup_app_r by (rewrite length_insert; lia).
      rewrite length_insert, Nat.sub_diag. reflexivity.
Qed.

(** C7: let the backend answer a batch of an iterable [strings] with a
    generator [g] that has [pending] to give.  With [optimized=True] (also
    when [optimized] is left out) [translate_strings] returns [g] itself,
    with everything still pending: it can be iterated once, a second
    iteration finds it empty.  With [optimized=False] it returns a new list
    that holds the items of [g]; iterating the list gives the items and
    changes nothing, so it can be done again. *)
Theorem translate_strings_lazy_or_materialized
    (self : t) (strings target_language : pyval) (source_language : option pyval)
    (w : world) (g : loc) (pending : list pyval) (h : list obj) :
  let source := default source_language_default source_language in
  let request := GoslateTranslate (service self) strings target_language source in
  let answered := with_heap h (log request w) in
  let spent := with_heap (<[g := OGen []]> h) answered in
  let materialized := with_heap (<[g := OGen []]> h ++ [OList pending]) answered in
  is_Iterable (heap w) strings = true →
  goslate_translate (service self) strings target_language source (log request w)
    = (inr (PyRef g), h) →
  h !! g = Some (OGen pending) →
  (translate_strings self strings target_language source_language
       (Some (PyBool true)) w = (inr (PyRef g), answered)
   ∧ translate_strings self strings target_language source_language None w
     = (inr (PyRef g), answered)
   ∧ iterate (PyRef g) answered = (inr pending, spent)
   ∧ iterate (PyRef g) spent = (inr [], spent))
  ∧ (translate_strings self strings target_language source_language
         (Some (PyBool false)) w = (inr (PyRef (length h)), materialized)
     ∧ heap materialized !! length h = Some (OList pending)
     ∧ iterate (PyRef (length h)) materialized = (inr pending, materialized)).
Proof.
  intros source request answered spent materialized Hit Hreply Hg.
  pose proof (lookup_lt_Some _ _ _ Hg) as Hlt.
  assert (Hspent : heap spent !! g = Some (OGen [])).
  { cbn. apply list_lookup_insert_eq. exact Hlt. }
  assert (Hnew : heap materialized !! length h = Some (OList pending)).
  { cbn. rewrite lookup_app_r by (rewrite length_insert; lia).
    rewrite length_insert, Nat.sub_diag. reflexivity. }
  split; [split; [|split; [|split]]|split; [|split]].
  - apply (translate_strings_optimized self strings target_language
             source_language (Some (PyBool true)) w g h Hit Hreply).
    reflexivity.
  - apply (translate_strings_optimized self strings target_language
             source_language None w g h Hit Hreply).
    reflexivity.
  - apply (iterate_generator g pending answered). exact Hg.
  - rewrite (iterate_generator g [] spent) by exact Hspent.
    unfold spent. cbn [heap with_heap].
    rewrite list_insert_insert_eq. reflexivity.
  - apply (translate_strings_not_optimized self strings target_language
             source_language (Some (PyBool false)) w g pending h Hit Hreply Hg).
    reflexivity.
  - exact Hnew.
  - apply iterate_list. exact Hnew.
Qed.

End goslate.

(** ** Reading the replies of the Google client *)

Lemma items_of_world (v : pyval) (w : world) : (items_of v w).2 = w.
Proof.
  destruct v; try reflexivity. cbn.
  destruct (heap w !! l) as [[| |]|]; reflexivity.
Qed.

Lemma subscript_inr (d : pyval) (key : string) (v : pyval) (w w' : world) :
  subscript d key w = (inr v, w') → w' = w ∧ has_field key d v.
Proof.
  destruct d; try discriminate. cbn.
  destruct (entries !! key) as [x|] eqn:Hx; [|discriminate].
  intros [= <- <-]. split; [reflexivity|]. exists entries. auto.
Qed.

Lemma subscript_world (d : pyval) (key : string) (w : world) :
  (subscript d key w).2 = w.
Proof.
  destruct d; try reflexivity. cbn. destruct (entries !! key); reflexivity.
Qed.

Lemma drawn_keeps (v : pyval) (rest : list pyval) (w : world) :
  ∃ w', drawn v rest w = (inr tt, w') ∧ trace w' = trace w ∧ keeps_lists w w'.
Proof.
  destruct v; try (exists w; repeat split; auto; intros ? ?; auto).
  cbn. destruct (heap w !! l) as [[| |pending]|] eqn:Hl;
    try (exists w; repeat split; auto; intros ? ?; auto).
  eexists. split; [reflexivity|]. split; [reflexivity|].
  intros l' items Hl'. cbn.
  rewrite list_lookup_insert_ne; [exact Hl'|]. intros ->.
  congruence.
Qed.

Lemma for_each_subscript (key : string) (v : pyval) (items new : list pyval)
    (w w' : world) :
  for_each (λ item, subscript item key) v items w = (inr new, w') →
  Forall2 (has_field key) items new ∧ trace w' = trace w ∧ keeps_lists w w'.
Proof.
  revert new w. induction items as [|x rest IH]; intros new w.
  - intros [= <- <-]. repeat split; [constructor|]. intros ? ?; auto.
  - cbn [for_each]. py_run.
    destruct (drawn_keeps v rest w) as (w1 & -> & Htr1 & Hk1).
    destruct (subscript x key w1) as [[e|y] w2] eqn:Hy; [discriminate|].
    apply subscript_inr in Hy as [-> Hy].
    destruct (for_each _ v rest w1) as [[e|ys] w3] eqn:Hys; [discriminate|].
    intros [= <- <-]. apply IH in Hys as (Hall & Htr3 & Hk3).
    split; [constructor; assumption|]. split; [congruence|].
    intros l items Hl. apply Hk3, Hk1, Hl.
Qed.

Section accumulator.
Context `{Backend}.
Import GoogleAPITranslatorService.

(** A newly built instance starts with an empty accumulator. *)
Lemma init_accumulator_empty (w w' : world) (self : t) :
  __init__ w = (inr self, w') →
  heap w' !! translated_strings self = Some (OList []).
Proof.
  unfold __init__, import_. py_run.
  destruct (importable "google.cloud.translate_v2"); [|discriminate].
  destruct (importable "google.oauth2.service_account"); [|discriminate].
  py_run. destruct (negb _); [discriminate|].
  destruct (from_service_account_info _ _) as [[e|credentials] h1];
    [discriminate|].
  destruct (translate_Client _ _) as [[e|client] h2]; [discriminate|].
  unfold alloc. cbn [heap with_heap]. intros [= <- <-]. cbn.
  rewrite lookup_app_r by lia. rewrite Nat.sub_diag. reflexivity.
Qed.

(** One call: what the client sent is appended to the accumulator, and
    the accumulator itself is what comes back. *)
Lemma translate_strings_extends
    (self : t) (strings target_language : pyval)
    (source_language optimized : option pyval)
    (acc : list pyval) (w w' : world) (r : pyval) :
  backend_spares (translated_strings self) →
  heap w !! translated_strings self = Some (OList acc) →
  translate_strings self strings target_language source_language optimized w
    = (inr r, w') →
  r = PyRef (translated_strings self)
  ∧ ∃ new,
      received self strings target_language source_language w new
      ∧ heap w' !! translated_strings self = Some (OList (acc ++ new)).
Proof.
  intros Hspare Hacc. unfold translate_strings, comprehension. py_run.
  destruct (is_MutableSequence (heap w) strings); [|discriminate].
  set (source := default strings_source_language_default source_language).
  set (request := ClientTranslate _ strings target_language source).
  destruct (client_translate _ strings target_language source (log request w))
    as [[e|response] h] eqn:Hreply; [discriminate|].
  assert (Hh : h !! translated_strings self = Some (OList acc)).
  { rewrite <- Hacc.
    specialize (Hspare (translate_client self) strings target_language source
                  (log request w)).
    rewrite Hreply in Hspare. apply Hspare. cbn. rewrite Hacc. eauto. }
  unfold getattr_extend. cbn [heap with_heap]. rewrite Hh. py_run.
  pose proof (items_of_world response (with_heap h (log request w))) as Hw.
  destruct (items_of response _) as [[e|items] w1] eqn:Hitems; [discriminate|].
  cbn in Hw. subst w1.
  destruct (for_each _ response items _) as [[e|new] w2] eqn:Hnew; [discriminate|].
  apply for_each_subscript in Hnew as (Hall & _ & Hkeep).
  specialize (Hkeep _ _ Hh). unfold extend. rewrite Hkeep. unfold store.
  intros [= <- <-]. split; [reflexivity|]. exists new. split.
  - exists response, h, items. auto.
  - cbn. apply list_lookup_insert_eq. eapply lookup_lt_Some, Hkeep.
Qed.

(** C2: on an instance whose accumulator holds [acc], two successive
    calls of [translate_strings] that return hand back the accumulator
    itself both times; after the second it holds [acc], then the
    translations received by the first call, then those received by the
    second.  Nothing is ever removed.  (The backend is assumed not to write
    into the accumulator.) *)
Theorem translate_strings_accumulates
    (self : t) (acc : list pyval)
    (strings1 target1 : pyval) (source1 optimized1 : option pyval)
    (strings2 target2 : pyval) (source2 optimized2 : option pyval)
    (w0 w1 w2 : world) (r1 r2 : pyval) :
  backend_spares (translated_strings self) →
  heap w0 !! translated_strings self = Some (OList acc) →
  translate_strings self strings1 target1 source1 optimized1 w0 = (inr r1, w1) →
  translate_strings self strings2 target2 source2 optimized2 w1 = (inr r2, w2) →
  ∃ new1 new2,
    received self strings1 target1 source1 w0 new1
    ∧ received self strings2 target2 source2 w1 new2
    ∧ r1 = PyRef (translated_strings self)
    ∧ r2 = PyRef (translated_strings self)
    ∧ iterate r1 w1 = (inr (acc ++ new1), w1)
    ∧ iterate r2 w2 = (inr (acc ++ new1 ++ new2), w2).
Proof.
  intros Hspare Hacc Hcall1 Hcall2.
  destruct (translate_strings_extends _ _ _ _ _ _ _ _ _ Hspare Hacc Hcall1)
    as (-> & new1 & Hrec1 & Hacc1).
  destruct (translate_strings_extends _ _ _ _ _ _ _ _ _ Hspare Hacc1 Hcall2)
    as (-> & new2 & Hrec2 & Hacc2).
  exists new1, new2. rewrite <- (assoc_L (++)) in Hacc2.
  repeat split; auto using iterate_list.
Qed.

End accumulator.

(** ** Order of the translations *)

Section order.
Context `{Backend}.
Import GoogleAPITranslatorService.

(** On an instance whose accumulator is still empty the Google service
    returns the translations of this call, in the order of the reply. *)
Lemma translate_strings_first_call
    (self : t) (strings target_language : pyval)
    (source_language optimized : option pyval) (w w' : world) (r : pyval) :
  backend_spares (translated_strings self) →
  heap w !! translated_strings self = Some (OList []) →
  translate_strings self strings target_language source_language optimized w
    = (inr r, w') →
  ∃ new,
    received self strings target_language source_language w new
    ∧ iterate r w' = (inr new, w').
Proof.
  intros Hspare Hacc Hcall.
  destruct (translate_strings_extends _ _ _ _ _ _ _ _ _ Hspare Hacc Hcall)
    as (-> & new & Hrec & Hacc').
  exists new. split; [exact Hrec|]. apply iterate_list. exact Hacc'.
Qed.

End order.

(** ** The services on the stand-in backend *)

Lemma stub_batch_spares (single : pyval → pyval) (wrap : list pyval → obj)
    (values : pyval) (w : world) (a : loc) :
  is_Some (heap w !! a) → (stub_batch single wrap values w).2 !! a = heap w !! a.
Proof.
  intros Ha. apply lookup_lt_is_Some in Ha.
  unfold stub_batch. destruct values; try reflexivity;
    destruct (items_of _ w) as [[e|xs] w1]; try reflexivity;
    cbn; apply lookup_app_l; exact Ha.
Qed.

Lemma stub_backend_spares (cfg : gmap string pyval) (reply : pyval → pyval) (a : loc) :
  @backend_spares (stub_backend cfg reply) a.
Proof. intros client values target source w Ha. apply stub_batch_spares, Ha. Qed.

(** C1: the second call on a Google service returns more than was asked
    for.  An instance is built on the stand-in backend and asked to
    translate [["hi"]], then [["bye"]].  The backend answers the second
    request with one reply, for ["bye"], yet the sequence returned by the
    second call is [["salut"; "au revoir"]]: two items for one input, the
    first of them the translation of the earlier call's input, so the result
    does not correspond to the input position for position. *)
Theorem translate_strings_second_call_out_of_step :
  let backend := stub_backend stub_credentials stub_reply in
  let session :=
    and_then (@GoogleAPITranslatorService.__init__ backend) (λ self,
      hi ← alloc (OList [PyStr "hi"]);
      @GoogleAPITranslatorService.translate_strings backend self (PyRef hi)
        (PyStr "fr") None None;;
      bye ← alloc (OList [PyStr "bye"]);
      returned ←
        @GoogleAPITranslatorService.translate_strings backend self (PyRef bye)
          (PyStr "fr") None None;
      iterate returned) in
  (session empty_world).1 = inr [PyStr "salut"; PyStr "au revoir"]
  ∧ heap (session empty_world).2 !! 4 = Some (OList [stub_reply (PyStr "bye")])
  ∧ ¬ Forall2 (λ input output, output = stub_word input)
        [PyStr "bye"] [PyStr "salut"; PyStr "au revoir"].
Proof.
  cbv zeta. split; [vm_compute; reflexivity|]. split; [vm_compute; reflexivity|].
  intros Hall. apply Forall2_length in Hall. discriminate Hall.
Qed.

(** ** Instances of the theorems on the stand-in backend *)

Lemma translate_string_rejects_non_string_witness :
  let backend := stub_backend ∅ stub_reply in
  is_string (PyInt 7) = false
  ∧ @GoSlateTranslatorService.translate_string backend stub_free (PyInt 7)
      (PyStr "fr") None empty_world
    = (inl (AssertionError "`text` should a string literal"), empty_world)
  ∧ @GoogleAPITranslatorService.translate_string backend stub_paid (PyInt 7)
      None None paid_world
    = (inl (AssertionError "`text` should a string literal"), paid_world).
Proof.
  cbv zeta. split; [reflexivity|]. split.
  - apply (@translate_string_rejects_non_string (stub_backend ∅ stub_reply)
             stub_free stub_paid (PyInt 7) (PyStr "fr") None None empty_world).
    reflexivity.
  - apply (@translate_string_rejects_non_string (stub_backend ∅ stub_reply)
             stub_free stub_paid (PyInt 7) (PyStr "fr") None None paid_world).
    reflexivity.
Defined.

Lemma translate_strings_rejects_wrong_shape_witness :
  let backend := stub_backend ∅ stub_reply in
  is_MutableSequence (heap free_world) (PyRef 1) = false
  ∧ is_MutableSequence (heap free_world) (PyRef 2) = false
  ∧ is_Iterable (heap free_world) (PyInt 7) = false
  ∧ @GoogleAPITranslatorService.translate_strings backend stub_paid (PyRef 1)
      (PyStr "fr") None None free_world
    = (inl (AssertionError
              "`strings` should be a sequence containing string_types"),
       free_world)
  ∧ @GoogleAPITranslatorService.translate_strings backend stub_paid (PyRef 2)
      (PyStr "fr") None None free_world
    = (inl (AssertionError
              "`strings` should be a sequence containing string_types"),
       free_world)
  ∧ @GoSlateTranslatorService.translate_strings backend stub_free (PyInt 7)
      (PyStr "fr") None None free_world
    = (inl (AssertionError
              "`strings` should a iterable containing string_types"),
       free_world).
Proof.
  cbv zeta. do 3 (split; [reflexivity|]).
  pose proof (@translate_strings_rejects_wrong_shape (stub_backend ∅ stub_reply)
                stub_free stub_paid (PyRef 1) (PyInt 7) (PyStr "fr") None None
                free_world eq_refl eq_refl) as [Hgenerator Hnumber].
  pose proof (@translate_strings_rejects_wrong_shape (stub_backend ∅ stub_reply)
                stub_free stub_paid (PyRef 2) (PyInt 7) (PyStr "fr") None None
                free_world eq_refl eq_refl) as [Hset _].
  repeat split; assumption.
Defined.

Lemma init_without_credentials_witness :
  let absent := stub_backend ∅ stub_reply in
  let empty :=
    stub_backend {[ GoogleAPITranslatorService.setting_name := PyDict ∅ ]}
      stub_reply in
  @settings absent !! GoogleAPITranslatorService.setting_name = None
  ∧ @settings empty !! GoogleAPITranslatorService.setting_name = Some (PyDict ∅)
  ∧ (∃ msg before after,
       @GoogleAPITranslatorService.__init__ absent empty_world
         = (inl (ImproperlyConfigured msg), empty_world)
       ∧ msg = before +:+ GoogleAPITranslatorService.setting_name +:+ after)
  ∧ (∃ msg before after,
       @GoogleAPITranslatorService.__init__ empty empty_world
         = (inl (ImproperlyConfigured msg), empty_world)
       ∧ msg = before +:+ GoogleAPITranslatorService.setting_name +:+ after).
Proof.
  cbv zeta. split; [reflexivity|]. split; [vm_compute; reflexivity|]. split.
  - apply (@init_without_credentials (stub_backend ∅ stub_reply) empty_world);
      [reflexivity|reflexivity|].
    left. reflexivity.
  - apply (@init_without_credentials
             (stub_backend {[ GoogleAPITranslatorService.setting_name := PyDict ∅ ]}
                stub_reply) empty_world); [reflexivity|reflexivity|].
    right. exists (PyDict ∅). split; [vm_compute; reflexivity|reflexivity].
Defined.

(** C6, counterexample to the statement for every configuration: on a host
    without the Google libraries the imports at the top of [__init__] come
    before the look at the settings, so with the setting absent the
    constructor raises [ImportError] and no configuration error. *)
Lemma init_without_credentials_import_first :
  @settings stub_host_unconfigured !! GoogleAPITranslatorService.setting_name
    = None
  ∧ @GoogleAPITranslatorService.__init__ stub_host_unconfigured empty_world
    = (inl (ImportError "google.cloud.translate_v2"), empty_world)
  ∧ ¬ (∃ msg w',
         @GoogleAPITranslatorService.__init__ stub_host_unconfigured empty_world
         = (inl (ImproperlyConfigured msg), w')).
Proof.
  split; [reflexivity|]. split; [reflexivity|].
  intros (msg & w' & Hinit). discriminate Hinit.
Qed.

Lemma translate_string_defaults_witness :
  let asked :=
    ClientTranslate (PyHandle 3) (PyStr "hola") (PyStr "en") (PyStr "es") in
  is_string (PyStr "hola") = true
  ∧ @client_translate stub_backend_strict (PyHandle 3) (PyStr "hola")
      (PyStr "en") (PyStr "es") (log asked paid_world)
    = (inr (stub_document stub_spanish (PyStr "hola")), heap paid_world)
  ∧ @client_translate stub_backend_strict (PyHandle 3) (PyStr "hola")
      (PyStr "es") (PyStr "en") (log asked paid_world)
    = (inl (BackendError "unsupported language pair"), heap paid_world)
  ∧ @GoogleAPITranslatorService.translate_string stub_backend_strict stub_paid
      (PyStr "hola") None None paid_world
    = (inr (PyStr "hello"), log asked paid_world).
Proof.
  cbv zeta. split; [reflexivity|]. split; [vm_compute; reflexivity|].
  split; [vm_compute; reflexivity|].
  destruct (@translate_string_defaults stub_backend_strict stub_paid
              (PyStr "hola") paid_world eq_refl)
    as (_ & _ & _ & _ & _ & Hrun).
  rewrite Hrun. vm_compute. reflexivity.
Defined.

Lemma translate_string_reads_translatedText_witness :
  let full := stub_backend stub_credentials stub_reply in
  let bare := stub_backend stub_credentials stub_reply_bare in
  let request :=
    ClientTranslate (PyHandle 3) (PyStr "hi") (PyStr "fr") (PyStr "es") in
  is_string (PyStr "hi") = true
  ∧ @GoogleAPITranslatorService.translate_string full stub_paid (PyStr "hi")
      (Some (PyStr "fr")) None paid_world
    = (inr (PyStr "salut"), log request paid_world)
  ∧ @GoogleAPITranslatorService.translate_string bare stub_paid (PyStr "hi")
      (Some (PyStr "fr")) None paid_world
    = (inr PyNone, log request paid_world).
Proof.
  cbv zeta. split; [reflexivity|]. split.
  - refine (proj2 (@translate_string_reads_translatedText
                     (stub_backend stub_credentials stub_reply) stub_paid
                     (PyStr "hi") (Some (PyStr "fr")) None paid_world
                     (<["translatedText" := PyStr "salut"]>
                        (<["input" := PyStr "hi"]> ∅))
                     (heap paid_world) eq_refl _) (PyStr "salut") _);
      vm_compute; reflexivity.
  - refine (proj1 (@translate_string_reads_translatedText
                     (stub_backend stub_credentials stub_reply_bare) stub_paid
                     (PyStr "hi") (Some (PyStr "fr")) None paid_world
                     (<["input" := PyStr "hi"]> ∅)
                     (heap paid_world) eq_refl _) _);
      vm_compute; reflexivity.
Defined.

Lemma translate_strings_lazy_or_materialized_witness :
  let backend := stub_backend ∅ stub_reply in
  let request :=
    GoslateTranslate (PyHandle 1) (PyRef 0) (PyStr "fr") (PyStr "en") in
  let strings := OList [PyStr "hello"; PyStr "world"] in
  let translations := [PyStr "bonjour"; PyStr "monde"] in
  let w := {| heap := [strings]; trace := [] |} in
  let answered := {| heap := [strings; OGen translations]; trace := [request] |} in
  let spent := {| heap := [strings; OGen []]; trace := [request] |} in
  let materialized :=
    {| heap := [strings; OGen []; OList translations]; trace := [request] |} in
  is_Iterable (heap w) (PyRef 0) = true
  ∧ @goslate_translate backend (PyHandle 1) (PyRef 0) (PyStr "fr") (PyStr "en")
      (log request w) = (inr (PyRef 1), heap answered)
  ∧ heap answered !! 1 = Some (OGen translations)
  ∧ @GoSlateTranslatorService.translate_strings backend stub_free (PyRef 0)
      (PyStr "fr") None (Some (PyBool true)) w = (inr (PyRef 1), answered)
  ∧ iterate (PyRef 1) answered = (inr translations, spent)
  ∧ iterate (PyRef 1) spent = (inr [], spent)
  ∧ @GoSlateTranslatorService.translate_strings backend stub_free (PyRef 0)
      (PyStr "fr") None (Some (PyBool false)) w = (inr (PyRef 2), materialized)
  ∧ iterate (PyRef 2) materialized = (inr translations, materialized).
Proof.
  cbv zeta. do 3 (split; [reflexivity|]).
  pose proof (@translate_strings_lazy_or_materialized (stub_backend ∅ stub_reply)
                stub_free (PyRef 0) (PyStr "fr") None
                {| heap := [OList [PyStr "hello"; PyStr "world"]]; trace := [] |}
                1 [PyStr "bonjour"; PyStr "monde"]
                [OList [PyStr "hello"; PyStr "world"];
                 OGen [PyStr "bonjour"; PyStr "monde"]]
                eq_refl eq_refl eq_refl)
    as [(Hlazy & _ & Honce & Htwice) (Heager & _ & Hagain)].
  repeat split; assumption.
Defined.

Lemma translate_strings_accumulates_witness :
  let backend := stub_backend stub_credentials stub_reply in
  let first :=
    @GoogleAPITranslatorService.translate_strings backend stub_paid (PyRef 1)
      (PyStr "fr") None None paid_world in
  let second :=
    @GoogleAPITranslatorService.translate_strings backend stub_paid (PyRef 2)
      (PyStr "fr") None None first.2 in
  @backend_spares backend 0
  ∧ heap paid_world !! 0 = Some (OList [])
  ∧ first.1 = inr (PyRef 0)
  ∧ second.1 = inr (PyRef 0)
  ∧ ∃ new1 new2,
      @received backend stub_paid (PyRef 1) (PyStr "fr") None paid_world new1
      ∧ @received backend stub_paid (PyRef 2) (PyStr "fr") None first.2 new2
      ∧ iterate (PyRef 0) first.2 = (inr ([] ++ new1), first.2)
      ∧ iterate (PyRef 0) second.2 = (inr ([] ++ new1 ++ new2), second.2).
Proof.
  cbv zeta. split; [apply stub_backend_spares|].
  do 3 (split; [reflexivity|]).
  destruct (@translate_strings_accumulates
              (stub_backend stub_credentials stub_reply) stub_paid []
              (PyRef 1) (PyStr "fr") None None (PyRef 2) (PyStr "fr") None None
              paid_world _ _ (PyRef 0) (PyRef 0)
              (stub_backend_spares _ _ 0) eq_refl eq_refl eq_refl)
    as (new1 & new2 & Hrec1 & Hrec2 & _ & _ & Hit1 & Hit2).
  exists new1, new2. repeat split; assumption.
Defined.

(** * Further properties of the services *)

(** ** What a comprehension leaves alone *)

Lemma for_each_frame (body : pyval → Py pyval) (v : pyval) (items : list pyval)
    (w : world) :
  (∀ x u, (body x u).2 = u) →
  trace (for_each body v items w).2 = trace w
  ∧ keeps_lists w (for_each body v items w).2.
Proof.
  intros Hbody. revert w. induction items as [|x rest IH]; intros w.
  - split; [reflexivity|]. intros ? ?; auto.
  - cbn [for_each]. py_run.
    destruct (drawn_keeps v rest w) as (w1 & -> & Htr1 & Hk1).
    pose proof (Hbody x w1) as Hx.
    destruct (body x w1) as [[e|y] w2]; cbn in Hx; subst w2.
    + split; [exact Htr1|exact Hk1].
    + destruct (IH w1) as [Htr Hk].
      destruct (for_each body v rest w1) as [[e|ys] w3]; cbn in *.
      * split; [congruence|]. intros l xs Hl. apply Hk, Hk1, Hl.
      * split; [congruence|]. intros l xs Hl. apply Hk, Hk1, Hl.
Qed.

Lemma comprehension_frame (body : pyval → Py pyval) (v : pyval) (w : world) :
  (∀ x u, (body x u).2 = u) →
  trace (comprehension body v w).2 = trace w
  ∧ keeps_lists w (comprehension body v w).2.
Proof.
  intros Hbody. unfold comprehension. py_run.
  pose proof (items_of_world v w) as Hw.
  destruct (items_of v w) as [[e|items] w1]; cbn in Hw; subst w1.
  - split; [reflexivity|]. intros ? ?; auto.
  - apply for_each_frame, Hbody.
Qed.

(** The first item without the field stops the comprehension of the Google
    service with a [KeyError]. *)
Lemma for_each_subscript_missing (key : string) (v : pyval)
    (good rest : list pyval) (entries : gmap string pyval) (w : world) :
  Forall (λ item, ∃ text, has_field key item text) good →
  entries !! key = None →
  (for_each (λ item, subscript item key) v (good ++ PyDict entries :: rest) w).1
  = inl (KeyError key).
Proof.
  intros Hgood Hnone. revert w.
  induction Hgood as [|x good (text & d & -> & Hd) _ IH]; intros w.
  - cbn [app for_each]. py_run.
    destruct (drawn_keeps v rest w) as (w1 & -> & _ & _).
    cbn. rewrite Hnone. reflexivity.
  - cbn [app for_each]. py_run.
    destruct (drawn_keeps v (good ++ PyDict entries :: rest) w)
      as (w1 & -> & _ & _).
    cbn [subscript]. rewrite Hd. py_run.
    specialize (IH w1).
    destruct (for_each _ v (good ++ PyDict entries :: rest) w1) as [[e|ys] w2];
      cbn in IH; [|discriminate].
    cbn. congruence.
Qed.

Section failures.
Context `{Backend}.
Import GoogleAPITranslatorService.

(** A call of [translate_strings] that raises has not touched the
    accumulator. *)
Lemma translate_strings_raises_keeps
    (self : t) (strings target_language : pyval)
    (source_language optimized : option pyval)
    (acc : list pyval) (w w' : world) (e : exn) :
  backend_spares (translated_strings self) →
  heap w !! translated_strings self = Some (OList acc) →
  translate_strings self strings target_language source_language optimized w
    = (inl e, w') →
  heap w' !! translated_strings self = Some (OList acc).
Proof.
  intros Hspare Hacc. unfold translate_strings. py_run.
  destruct (is_MutableSequence (heap w) strings);
    [|intros [= <- <-]; exact Hacc].
  set (source := default strings_source_language_default source_language).
  set (request := ClientTranslate _ strings target_language source).
  pose proof (Hspare (translate_client self) strings target_language source
                (log request w)) as Hh.
  destruct (client_translate _ strings target_language source (log request w))
    as [[e'|response] h] eqn:Hreply; cbn in Hh;
    rewrite Hacc in Hh; specialize (Hh (mk_is_Some _ _ eq_refl)).
  { intros [= <- <-]. exact Hh. }
  unfold getattr_extend. cbn [heap with_heap]. rewrite Hh. py_run.
  destruct (comprehension_frame (λ translation, subscript translation "translatedText")
              response (with_heap h (log request w))
              (λ x u, subscript_world x "translatedText" u)) as [_ Hkeep].
  destruct (comprehension _ response _) as [[e'|new] w2]; cbn in Hkeep.
  { intros [= <- <-]. apply Hkeep. exact Hh. }
  unfold extend. rewrite (Hkeep _ _ Hh). unfold store. discriminate.
Qed.

(** X1: a call of [translate_strings] on the Google service that ends in
    an exception, whichever it is (a rejected argument, a failure of the
    client, a reply that cannot be read), leaves the accumulator with exactly
    the items it had: reading it afterwards gives the old content.  The
    translations of a call are appended all together or not at all. *)
Theorem translate_strings_all_or_nothing
    (self : t) (strings target_language : pyval)
    (source_language optimized : option pyval)
    (acc : list pyval) (w w' : world) (e : exn) :
  backend_spares (translated_strings self) →
  heap w !! translated_strings self = Some (OList acc) →
  translate_strings self strings target_language source_language optimized w
    = (inl e, w') →
  iterate (PyRef (translated_strings self)) w' = (inr acc, w').
Proof.
  intros Hspare Hacc Hcall. apply iterate_list.
  apply (translate_strings_raises_keeps self strings target_language
           source_language optimized acc w w' e Hspare Hacc Hcall).
Qed.

(** X2: on a service whose accumulator is a list, when the reply to a
    batch holds a document without a ["translatedText"] entry, after any
    number of documents that have one, [translate_strings] of the Google
    service raises [KeyError] for that key (where [translate_string] returns
    [None]). *)
Theorem translate_strings_missing_field
    (self : t) (strings target_language : pyval)
    (source_language optimized : option pyval) (w : world)
    (response : pyval) (h : list obj) (acc : list pyval)
    (good rest : list pyval) (entries : gmap string pyval) :
  let source := default strings_source_language_default source_language in
  let request :=
    ClientTranslate (translate_client self) strings target_language source in
  is_MutableSequence (heap w) strings = true →
  client_translate (translate_client self) strings target_language source
    (log request w) = (inr response, h) →
  h !! translated_strings self = Some (OList acc) →
  (items_of response (with_heap h (log request w))).1
    = inr (good ++ PyDict entries :: rest) →
  Forall (λ item, ∃ text, has_field "translatedText" item text) good →
  entries !! "translatedText" = None →
  (translate_strings self strings target_language source_language optimized w).1
  = inl (KeyError "translatedText").
Proof.
  intros source request Hseq Hreply Hacc Hitems Hgood Hnone.
  unfold translate_strings, comprehension. py_run. rewrite Hseq.
  fold source request. rewrite Hreply.
  unfold getattr_extend. cbn [heap with_heap]. rewrite Hacc. py_run.
  pose proof (items_of_world response (with_heap h (log request w))) as Hw.
  destruct (items_of response _) as [[e|items] w1]; cbn in Hitems, Hw;
    [discriminate|].
  injection Hitems as ->. subst w1.
  pose proof (for_each_subscript_missing "translatedText" response good rest
                entries (with_heap h (log request w)) Hgood Hnone) as Hfail.
  destruct (for_each _ response _ _) as [[e|new] w2]; cbn in Hfail;
    [|discriminate].
  cbn. congruence.
Qed.

End failures.

(** ** One request per call *)

Lemma comprehension_subscript_inr (key : string) (v : pyval) (new : list pyval)
    (w w' : world) :
  comprehension (λ item, subscript item key) v w = (inr new, w') →
  ∃ items, items_of v w = (inr items, w) ∧ Forall2 (has_field key) items new.
Proof.
  unfold comprehension. py_run.
  pose proof (items_of_world v w) as Hw.
  destruct (items_of v w) as [[e|items] w1]; cbn in Hw; subst w1;
    [discriminate|].
  intros Hrun. apply for_each_subscript in Hrun as (Hall & _ & _).
  exists items. auto.
Qed.

Section requests.
Context `{Backend}.

(** X3: a call of [translate_strings] whose argument passes the
    [isinstance] test applies the client's [translate] once, to the batch as
    it was given, the target language and the source language (["en"] when
    left out), and logs that one request, whether the call then returns or
    raises.  An exception of the client is the exception of the call, with
    the store as the client left it: nothing is retried or split.  A call of
    the Google service that returns has received the ["translatedText"]
    fields of the reply to that request; a call of the GoSlate service returns
    that very reply when [optimized] is true, and one full iteration of it in
    a new list when it is false. *)
Theorem translate_strings_one_request
    (free : GoSlateTranslatorService.t) (paid : GoogleAPITranslatorService.t)
    (sequence iterable target_language : pyval)
    (source_language optimized : option pyval) (w : world) :
  let source := default (PyStr "en") source_language in
  let asked :=
    ClientTranslate (GoogleAPITranslatorService.translate_client paid)
      sequence target_language source in
  let answer :=
    client_translate (GoogleAPITranslatorService.translate_client paid)
      sequence target_language source (log asked w) in
  let outcome :=
    GoogleAPITranslatorService.translate_strings paid sequence target_language
      source_language optimized w in
  let web_asked :=
    GoslateTranslate (GoSlateTranslatorService.service free) iterable
      target_language source in
  let web_answer :=
    goslate_translate (GoSlateTranslatorService.service free) iterable
      target_language source (log web_asked w) in
  let web_answered := with_heap web_answer.2 (log web_asked w) in
  let web_outcome :=
    GoSlateTranslatorService.translate_strings free iterable target_language
      source_language optimized w in
  is_MutableSequence (heap w) sequence = true →
  is_Iterable (heap w) iterable = true →
  (trace outcome.2 = trace w ++ [asked]
   ∧ (∀ e, answer.1 = inl e →
        outcome = (inl e, with_heap answer.2 (log asked w)))
   ∧ (∀ r, outcome.1 = inr r →
        ∃ new, received paid sequence target_language source_language w new))
  ∧ (trace web_outcome.2 = trace w ++ [web_asked]
     ∧ (∀ e, web_answer.1 = inl e → web_outcome = (inl e, web_answered))
     ∧ (∀ translations,
          web_answer.1 = inr translations →
          truthy web_answer.2 (default (PyBool true) optimized) = true →
          web_outcome = (inr translations, web_answered))
     ∧ (∀ translations,
          web_answer.1 = inr translations →
          truthy web_answer.2 (default (PyBool true) optimized) = false →
          web_outcome
          = match iterate translations web_answered with
            | (inl e, u) => (inl e, u)
            | (inr xs, u) =>
                (inr (PyRef (length (heap u))), with_heap (heap u ++ [OList xs]) u)
            end)).
Proof.
  intros source asked answer outcome web_asked web_answer web_answered
    web_outcome Hseq Hit.
  split.
  - subst outcome. unfold received.
    unfold GoogleAPITranslatorService.translate_strings. py_run. rewrite Hseq.
    unfold GoogleAPITranslatorService.strings_source_language_default.
    fold source asked answer.
    destruct answer as [[e|response] h] eqn:Hanswer; cbn [fst snd].
    { split; [reflexivity|]. split; [|discriminate].
      intros e' [= <-]. reflexivity. }
    unfold getattr_extend. cbn [heap with_heap].
    destruct (h !! GoogleAPITranslatorService.translated_strings paid)
      as [[acc|acc|acc]|] eqn:Hacc; cbn [fst snd];
      try (split; [reflexivity|]; split; discriminate).
    destruct (comprehension_frame
                (λ translation, subscript translation "translatedText")
                response (with_heap h (log asked w))
                (λ x u, subscript_world x "translatedText" u)) as [Htr Hkeep].
    destruct (comprehension _ response _) as [[e|new] w2] eqn:Hnew;
      cbn in Htr, Hkeep; cbn [fst snd].
    { split; [exact Htr|]. split; discriminate. }
    specialize (Hkeep _ _ Hacc). unfold extend, store. rewrite Hkeep.
    cbn [fst snd trace with_heap].
    split; [exact Htr|]. split; [discriminate|].
    intros r _. apply comprehension_subscript_inr in Hnew as (items & Hitems & Hall).
    exists new, response, h, items. auto.
  - subst web_outcome web_answered.
    unfold GoSlateTranslatorService.translate_strings. py_run. rewrite Hit.
    unfold GoSlateTranslatorService.source_language_default,
      GoSlateTranslatorService.optimized_default.
    fold source web_asked web_answer.
    destruct web_answer as [[e|translations] h] eqn:Hanswer; cbn [fst snd].
    { split; [reflexivity|]. split; [intros e' [= <-]; reflexivity|].
      split; discriminate. }
    cbn [heap with_heap].
    destruct (truthy h (default (PyBool true) optimized)) eqn:Hopt.
    { split; [reflexivity|]. split; [discriminate|]. split.
      - intros t [= <-] _. reflexivity.
      - discriminate. }
    destruct (comprehension_frame (λ x u, (inr x, u)) translations
                (with_heap h (log web_asked w)) (λ x u, eq_refl)) as [Htr _].
    split.
    { destruct (comprehension _ translations _) as [[e|items] w2]; cbn in Htr;
        exact Htr. }
    split; [discriminate|]. split; [discriminate|].
    intros t [= <-] _. unfold iterate, mret, Py_ret.
    destruct (comprehension _ translations _) as [[e|items] w2]; reflexivity.
Qed.

(** X4: [translate_string] on a string applies the client once, to the
    text and the languages as given or defaulted (GoSlate: source ["en"];
    Google: target ["en"], source ["es"]), and logs that one request.  The
    GoSlate service hands back the answer of its client as it is, a value or
    an exception, and the store as the client left it; the Google service
    passes on an exception of its client and reads a value with
    [.get("translatedText")]. *)
Theorem translate_string_one_request
    (free : GoSlateTranslatorService.t) (paid : GoogleAPITranslatorService.t)
    (text target_language : pyval) (target source_language : option pyval)
    (w : world) :
  let asked :=
    GoslateTranslate (GoSlateTranslatorService.service free) text
      target_language (default (PyStr "en") source_language) in
  let answer :=
    goslate_translate (GoSlateTranslatorService.service free) text
      target_language (default (PyStr "en") source_language) (log asked w) in
  let paid_asked :=
    ClientTranslate (GoogleAPITranslatorService.translate_client paid) text
      (default (PyStr "en") target) (default (PyStr "es") source_language) in
  let paid_answer :=
    client_translate (GoogleAPITranslatorService.translate_client paid) text
      (default (PyStr "en") target) (default (PyStr "es") source_language)
      (log paid_asked w) in
  let paid_answered :=
    {| heap := paid_answer.2; trace := trace w ++ [paid_asked] |} in
  is_string text = true →
  GoSlateTranslatorService.translate_string free text target_language
      source_language w
    = (answer.1, {| heap := answer.2; trace := trace w ++ [asked] |})
  ∧ GoogleAPITranslatorService.translate_string paid text target
      source_language w
    = match paid_answer.1 with
      | inl e => (inl e, paid_answered)
      | inr translation => dict_get translation "translatedText" paid_answered
      end.
Proof.
  intros asked answer paid_asked paid_answer paid_answered Hs. split.
  - unfold GoSlateTranslatorService.translate_string. py_run. rewrite Hs.
    unfold GoSlateTranslatorService.source_language_default.
    fold asked. fold answer. destruct answer as [r h]. reflexivity.
  - apply (translate_string_runs paid text target source_language w Hs).
Qed.

End requests.

(** ** The accumulator over a series of calls *)

Section series.
Context `{Backend}.
Import GoogleAPITranslatorService.

Lemma translate_string_keeps
    (self : t) (text : pyval) (target_language source_language : option pyval)
    (acc : list pyval) (w : world) :
  backend_spares (translated_strings self) →
  heap w !! translated_strings self = Some (OList acc) →
  heap (translate_string self text target_language source_language w).2
    !! translated_strings self = Some (OList acc).
Proof.
  intros Hspare Hacc. unfold translate_string. py_run.
  destruct (is_string text); [|exact Hacc].
  set (target := default target_language_default target_language).
  set (source := default source_language_default source_language).
  set (request := ClientTranslate _ text target source).
  pose proof (Hspare (translate_client self) text target source (log request w))
    as Hh.
  destruct (client_translate _ text target source (log request w))
    as [[e|translation] h]; cbn in Hh; rewrite Hacc in Hh;
    specialize (Hh (mk_is_Some _ _ eq_refl)); [exact Hh|].
  destruct translation; exact Hh.
Qed.

Lemma serve_grows (self : t) (q : invocation) (acc : list pyval) (w : world) :
  backend_spares (translated_strings self) →
  heap w !! translated_strings self = Some (OList acc) →
  ∃ more,
    heap (serve self q w).2 !! translated_strings self = Some (OList (acc ++ more)).
Proof.
  intros Hspare Hacc. destruct q as [text tl sl|strings tl sl opt]; cbn [serve].
  - exists []. rewrite app_nil_r. apply translate_string_keeps; assumption.
  - destruct (translate_strings self strings tl sl opt w) as [[e|r] w'] eqn:Hcall.
    + exists []. rewrite app_nil_r.
      apply (translate_strings_raises_keeps _ _ _ _ _ _ _ _ _ Hspare Hacc Hcall).
    + destruct (translate_strings_extends _ _ _ _ _ _ _ _ _ Hspare Hacc Hcall)
        as (_ & new & _ & Hnew).
      exists new. exact Hnew.
Qed.

(** X5: whatever calls are made on a Google service, in whatever order and
    whether they return or raise, the accumulator only grows at its end:
    what it held before the calls is a prefix of what it holds after them.
    No method of the service ever removes or replaces an item. *)
Theorem accumulator_only_grows
    (self : t) (qs : list invocation) (acc : list pyval) (w : world) :
  backend_spares (translated_strings self) →
  heap w !! translated_strings self = Some (OList acc) →
  ∃ more,
    iterate (PyRef (translated_strings self)) (after_calls self qs w)
    = (inr (acc ++ more), after_calls self qs w).
Proof.
  intros Hspare. revert acc w.
  induction qs as [|q qs IH]; intros acc w Hacc.
  - exists []. rewrite app_nil_r. apply iterate_list. exact Hacc.
  - destruct (serve_grows self q acc w Hspare Hacc) as (more1 & Hstep).
    destruct (IH _ _ Hstep) as (more2 & Hrest).
    exists (more1 ++ more2). rewrite (assoc_L (++)). exact Hrest.
Qed.

(** X6: [translate_strings] of the Google service only reads its argument:
    a list passed as [strings] that is not the accumulator itself holds the
    same items after the call, whether the call returned or raised. *)
Theorem translate_strings_leaves_argument
    (self : t) (l : loc) (items : list pyval) (target_language : pyval)
    (source_language optimized : option pyval) (w : world) :
  backend_spares l →
  l ≠ translated_strings self →
  heap w !! l = Some (OList items) →
  heap (translate_strings self (PyRef l) target_language source_language
          optimized w).2 !! l = Some (OList items).
Proof.
  intros Hspare Hne Hl. unfold translate_strings. py_run.
  cbn [is_MutableSequence]. rewrite Hl.
  set (source := default strings_source_language_default source_language).
  set (request := ClientTranslate _ (PyRef l) target_language source).
  pose proof (Hspare (translate_client self) (PyRef l) target_language source
                (log request w)) as Hh.
  destruct (client_translate _ (PyRef l) target_language source (log request w))
    as [[e|response] h]; cbn in Hh; rewrite Hl in Hh;
    specialize (Hh (mk_is_Some _ _ eq_refl)); [exact Hh|].
  unfold getattr_extend. cbn [heap with_heap].
  destruct (h !! translated_strings self) as [[acc|acc|acc]|]; try exact Hh.
  py_run.
  destruct (comprehension_frame
              (λ translation, subscript translation "translatedText")
              response (with_heap h (log request w))
              (λ x u, subscript_world x "translatedText" u)) as [_ Hkeep].
  destruct (comprehension _ response _) as [[e|new] w2]; cbn in Hkeep;
    [apply Hkeep, Hh|].
  specialize (Hkeep _ _ Hh). unfold extend, store.
  destruct (heap w2 !! translated_strings self) as [[xs|xs|xs]|]; try exact Hkeep.
  cbn. rewrite list_lookup_insert_ne by congruence. exact Hkeep.
Qed.

End series.

(** ** More on the GoSlate service *)

Section web.
Context `{Backend}.
Import GoSlateTranslatorService.

(** With a false [optimized] and an answer that is not a generator, the
    items of the answer go into a new list at the end of the store. *)
Lemma translate_strings_materializes
    (self : t) (strings target_language : pyval)
    (source_language optimized : option pyval)
    (w : world) (reply : pyval) (h : list obj) (xs : list pyval) :
  let source := default source_language_default source_language in
  let request := GoslateTranslate (service self) strings target_language source in
  is_Iterable (heap w) strings = true →
  goslate_translate (service self) strings target_language source (log request w)
    = (inr reply, h) →
  truthy h (default optimized_default optimized) = false →
  ¬ generator h reply →
  (items_of reply (with_heap h (log request w))).1 = inr xs →
  translate_strings self strings target_language source_language optimized w
  = (inr (PyRef (length h)), with_heap (h ++ [OList xs]) (log request w)).
Proof.
  intros source request Hit Hreply Hopt Hgen Hitems.
  unfold translate_strings, comprehension. py_run. rewrite Hit.
  fold source request. rewrite Hreply. cbn [heap with_heap]. rewrite Hopt.
  pose proof (items_of_world reply (with_heap h (log request w))) as Hw.
  destruct (items_of reply _) as [[e|items] w1]; cbn in Hitems, Hw;
    [discriminate|].
  injection Hitems as ->. subst w1.
  change (λ (x : pyval) (w0 : world), (inr x, w0)) with (@mret Py _ pyval).
  rewrite for_each_mret_static by exact Hgen.
  reflexivity.
Qed.

(** X7: when [optimized] is false in the sense of [if] ([False], [0],
    [None], an empty string) and the client answers with an iterable that is
    not a generator, [translate_strings] of the GoSlate service returns a
    new list with the items of the answer: a copy at a reference the answer
    does not have, added at the end of a store that is otherwise as the
    client left it. *)
Theorem translate_strings_copies_reply
    (self : t) (strings target_language : pyval)
    (source_language optimized : option pyval)
    (w : world) (reply : pyval) (h : list obj) (xs : list pyval) :
  let source := default source_language_default source_language in
  let request := GoslateTranslate (service self) strings target_language source in
  is_Iterable (heap w) strings = true →
  goslate_translate (service self) strings target_language source (log request w)
    = (inr reply, h) →
  truthy h (default optimized_default optimized) = false →
  ¬ generator h reply →
  (items_of reply (with_heap h (log request w))).1 = inr xs →
  translate_strings self strings target_language source_language optimized w
    = (inr (PyRef (length h)), with_heap (h ++ [OList xs]) (log request w))
  ∧ reply ≠ PyRef (length h).
Proof.
  intros source request Hit Hreply Hopt Hgen Hitems. split.
  - apply (translate_strings_materializes self strings target_language
             source_language optimized w reply h xs); assumption.
  - intros ->. cbn in Hitems.
    rewrite (lookup_ge_None_2 h (length h)) in Hitems by lia.
    discriminate Hitems.
Qed.

(** X8: a single string passes the test on [strings], a string being
    iterable.  If the client answers it with one translated string, the
    caller gets that string when [optimized] is left out, and the list of
    its characters with [optimized=False]. *)
Theorem translate_strings_of_one_string
    (self : t) (s s' : string) (target_language : pyval)
    (source_language : option pyval) (w : world) (h : list obj) :
  let source := default source_language_default source_language in
  let request :=
    GoslateTranslate (service self) (PyStr s) target_language source in
  goslate_translate (service self) (PyStr s) target_language source
    (log request w) = (inr (PyStr s'), h) →
  translate_strings self (PyStr s) target_language source_language None w
    = (inr (PyStr s'), with_heap h (log request w))
  ∧ translate_strings self (PyStr s) target_language source_language
      (Some (PyBool false)) w
    = (inr (PyRef (length h)),
       with_heap (h ++ [OList (characters s')]) (log request w)).
Proof.
  intros source request Hreply. split.
  - unfold translate_strings. py_run. cbn [is_Iterable].
    fold source request. rewrite Hreply. reflexivity.
  - apply (translate_strings_materializes self (PyStr s) target_language
             source_language (Some (PyBool false)) w (PyStr s') h
             (characters s')); try reflexivity; try assumption.
    intros (l & pending & Hl & _). discriminate Hl.
Qed.

(** X9: [translate_strings] of the GoSlate service only reads its
    argument: a list passed as [strings] holds the same items after the
    call, with either value of [optimized] and whether the call returned or
    raised. *)
Theorem translate_strings_web_leaves_argument
    (self : t) (l : loc) (items : list pyval) (target_language : pyval)
    (source_language optimized : option pyval) (w : world) :
  web_backend_spares l →
  heap w !! l = Some (OList items) →
  heap (translate_strings self (PyRef l) target_language source_language
          optimized w).2 !! l = Some (OList items).
Proof.
  intros Hspare Hl. unfold translate_strings. py_run.
  cbn [is_Iterable]. rewrite Hl. rewrite bool_decide_eq_true_2 by eauto.
  set (source := default source_language_default source_language).
  set (request := GoslateTranslate _ (PyRef l) target_language source).
  pose proof (Hspare (service self) (PyRef l) target_language source
                (log request w)) as Hh.
  destruct (goslate_translate _ (PyRef l) target_language source (log request w))
    as [[e|translations] h]; cbn in Hh; rewrite Hl in Hh;
    specialize (Hh (mk_is_Some _ _ eq_refl)); [exact Hh|].
  cbn [heap with_heap]. destruct (truthy h _); [exact Hh|].
  destruct (comprehension_frame (λ x u, (inr x, u)) translations
              (with_heap h (log request w)) (λ x u, eq_refl)) as [_ Hkeep].
  destruct (comprehension _ translations _) as [[e|xs] w2]; cbn in Hkeep;
    [apply Hkeep, Hh|].
  specialize (Hkeep _ _ Hh). unfold alloc. cbn.
  rewrite lookup_app_l by (eapply lookup_lt_Some, Hkeep). exact Hkeep.
Qed.

(** X10: without the [goslate] package ([compat.goslate] is [None], or
    anything false) the GoSlate service cannot be built: [__init__] raises
    [AssertionError] before it asks for a client. *)
Theorem goslate_init_without_package (w : world) :
  truthy (heap w) goslate = false →
  __init__ w
  = (inl (AssertionError "`GoSlateTranslatorService` requires `goslate` package"),
     w).
Proof.
  intros Hmissing. unfold __init__. py_run. rewrite Hmissing. reflexivity.
Qed.

End web.

(** ** Building a Google service *)

Section construction.
Context `{Backend}.
Import GoogleAPITranslatorService.

(** X11: a Google service that has been built implies a host where both
    Google libraries import and a credentials setting that is present and
    true.  Building it made two foreign calls and no other: the setting's
    value was decoded into credentials, then a client was made from those
    credentials, the one the instance holds.  Its accumulator is a new, empty
    list, the last object of the store. *)
Theorem init_success (w w' : world) (self : t) :
  __init__ w = (inr self, w') →
  importable "google.cloud.translate_v2" = true
  ∧ importable "google.oauth2.service_account" = true
  ∧ ∃ info credentials h1 h2,
      settings !! setting_name = Some info
      ∧ truthy (heap w) info = true
      ∧ from_service_account_info info (log (CredentialsFromInfo info) w)
        = (inr credentials, h1)
      ∧ translate_Client credentials
          (log (ClientNew credentials)
             (with_heap h1 (log (CredentialsFromInfo info) w)))
        = (inr (translate_client self), h2)
      ∧ trace w' = trace w ++ [CredentialsFromInfo info; ClientNew credentials]
      ∧ translated_strings self = length h2
      ∧ heap w' = h2 ++ [OList []].
Proof.
  unfold __init__, import_. py_run.
  destruct (importable "google.cloud.translate_v2"); [|discriminate].
  destruct (importable "google.oauth2.service_account"); [|discriminate].
  py_run.
  destruct (settings !! setting_name) as [info|] eqn:Hinfo;
    cbn [default from_option id]; [|discriminate].
  destruct (truthy (heap w) info) eqn:Htrue; cbn [negb]; [|discriminate].
  destruct (from_service_account_info info _) as [[e|credentials] h1] eqn:Hcred;
    [discriminate|].
  destruct (translate_Client credentials _) as [[e|client] h2] eqn:Hclient;
    [discriminate|].
  unfold alloc. cbn [heap with_heap]. intros [= <- <-].
  split; [reflexivity|]. split; [reflexivity|].
  exists info, credentials, h1, h2. cbn.
  repeat split; auto. rewrite <- (assoc_L (++)). reflexivity.
Qed.

(** X12: when one of the two Google libraries cannot be imported,
    [__init__] raises [ImportError] for it and does nothing else, whatever
    the settings hold: a missing library is reported before a missing
    credentials setting is. *)
Theorem init_import_error (w : world) :
  importable "google.cloud.translate_v2" = false
  ∨ importable "google.oauth2.service_account" = false →
  ∃ name,
    __init__ w = (inl (ImportError name), w) ∧ importable name = false.
Proof.
  intros Hmissing. unfold __init__, import_. py_run.
  destruct (importable "google.cloud.translate_v2") eqn:Ht.
  - destruct Hmissing as [Hm|Hm]; [discriminate|].
    exists "google.oauth2.service_account". rewrite Hm. auto.
  - exists "google.cloud.translate_v2". auto.
Qed.

(** X13: the first call of [translate_strings] on a Google service that
    has just been built returns the translations of that call and nothing
    else, in the order of the client's reply. *)
Theorem translate_strings_on_new_instance
    (w w1 w2 : world) (self : t) (strings target_language : pyval)
    (source_language optimized : option pyval) (r : pyval) :
  __init__ w = (inr self, w1) →
  backend_spares (translated_strings self) →
  translate_strings self strings target_language source_language optimized w1
    = (inr r, w2) →
  ∃ new,
    received self strings target_language source_language w1 new
    ∧ iterate r w2 = (inr new, w2).
Proof.
  intros Hinit Hspare Hcall.
  apply (translate_strings_first_call self strings target_language
           source_language optimized w1 w2 r Hspare).
  - apply (init_accumulator_empty w w1 self Hinit).
  - exact Hcall.
Qed.

End construction.

(** ** What the caller reads, for any [optimized] *)

Section reading.
Context `{Backend}.
Import GoSlateTranslatorService.

(** X14: when the client of the GoSlate service answers a batch with a
    generator, the value of [optimized], given or left out, true or false,
    makes no difference to what the caller reads from the result of
    [translate_strings]: one iteration yields exactly the items the
    generator had pending, in their order. *)
Theorem translate_strings_reads_the_same
    (self : t) (strings target_language : pyval)
    (source_language optimized : option pyval)
    (w : world) (g : loc) (pending : list pyval) (h : list obj) :
  let source := default source_language_default source_language in
  let request := GoslateTranslate (service self) strings target_language source in
  is_Iterable (heap w) strings = true →
  goslate_translate (service self) strings target_language source (log request w)
    = (inr (PyRef g), h) →
  h !! g = Some (OGen pending) →
  ∃ r w',
    translate_strings self strings target_language source_language optimized w
      = (inr r, w')
    ∧ (iterate r w').1 = inr pending.
Proof.
  intros source request Hit Hreply Hg.
  destruct (truthy h (default optimized_default optimized)) eqn:Hopt.
  - eexists _, _. split.
    + apply (translate_strings_optimized self strings target_language
               source_language optimized w g h Hit Hreply Hopt).
    + rewrite (iterate_generator g pending) by exact Hg. reflexivity.
  - eexists _, _. split.
    + apply (translate_strings_not_optimized self strings target_language
               source_language optimized w g pending h Hit Hreply Hg Hopt).
    + rewrite (iterate_list (length h) pending); [reflexivity|]. cbn.
      rewrite lookup_app_r by (rewrite length_insert; lia).
      rewrite length_insert, Nat.sub_diag. reflexivity.
Qed.

End reading.

(** ** Instances of the further properties on the stand-in backend *)

Lemma stub_web_backend_spares (cfg : gmap string pyval) (reply : pyval → pyval)
    (a : loc) :
  @web_backend_spares (stub_backend cfg reply) a.
Proof. intros service text target source w Ha. apply stub_batch_spares, Ha. Qed.

Lemma translate_strings_all_or_nothing_witness :
  let backend := stub_backend stub_credentials stub_reply_patchy in
  let call :=
    @GoogleAPITranslatorService.translate_strings backend stub_paid (PyRef 1)
      (PyStr "fr") None None used_world in
  @backend_spares backend 0
  ∧ heap used_world !! 0 = Some (OList [PyStr "salut"])
  ∧ call.1 = inl (KeyError "translatedText")
  ∧ iterate (PyRef 0) call.2 = (inr [PyStr "salut"], call.2).
Proof.
  cbv zeta. split; [apply stub_backend_spares|].
  split; [reflexivity|]. split; [vm_compute; reflexivity|].
  apply (@translate_strings_all_or_nothing
           (stub_backend stub_credentials stub_reply_patchy) stub_paid (PyRef 1)
           (PyStr "fr") None None [PyStr "salut"] used_world _
           (KeyError "translatedText") (stub_backend_spares _ _ 0) eq_refl).
  vm_compute. reflexivity.
Defined.

Lemma translate_strings_missing_field_witness :
  let backend := stub_backend stub_credentials stub_reply_patchy in
  is_MutableSequence (heap used_world) (PyRef 1) = true
  ∧ (@GoogleAPITranslatorService.translate_strings backend stub_paid (PyRef 1)
       (PyStr "fr") None None used_world).1
    = inl (KeyError "translatedText").
Proof.
  cbv zeta. split; [reflexivity|].
  apply (@translate_strings_missing_field
           (stub_backend stub_credentials stub_reply_patchy) stub_paid (PyRef 1)
           (PyStr "fr") None None used_world (PyRef 2)
           (heap used_world
              ++ [OList [stub_reply (PyStr "hi"); stub_reply_bare (PyStr "bye")]])
           [PyStr "salut"]
           [stub_reply (PyStr "hi")] [] (<["input" := PyStr "bye"]> ∅)).
  - reflexivity.
  - vm_compute. reflexivity.
  - reflexivity.
  - vm_compute. reflexivity.
  - constructor; [|constructor].
    exists (PyStr "salut"), (<["translatedText" := PyStr "salut"]>
                              (<["input" := PyStr "hi"]> ∅)).
    split; vm_compute; reflexivity.
  - vm_compute. reflexivity.
Defined.

Lemma translate_strings_one_request_witness :
  let asked :=
    ClientTranslate (PyHandle 3) (PyRef 1) (PyStr "fr") (PyStr "en") in
  let refused :=
    ClientTranslate (PyHandle 3) (PyRef 1) (PyStr "de") (PyStr "en") in
  let web_asked :=
    GoslateTranslate (PyHandle 1) (PyRef 2) (PyStr "fr") (PyStr "en") in
  is_MutableSequence (heap paid_world) (PyRef 1) = true
  ∧ is_Iterable (heap paid_world) (PyRef 2) = true
  ∧ @GoogleAPITranslatorService.translate_strings stub_backend_strict stub_paid
      (PyRef 1) (PyStr "de") None None paid_world
    = (inl (BackendError "unsupported language pair"), log refused paid_world)
  ∧ trace (@GoogleAPITranslatorService.translate_strings stub_backend_strict
             stub_paid (PyRef 1) (PyStr "fr") None None paid_world).2
    = [asked]
  ∧ (∃ new,
       @received stub_backend_strict stub_paid (PyRef 1) (PyStr "fr") None
         paid_world new)
  ∧ @GoSlateTranslatorService.translate_strings stub_backend_strict stub_free
      (PyRef 2) (PyStr "fr") None None paid_world
    = (inr (PyRef 3),
       with_heap (heap paid_world ++ [OGen [PyStr "au revoir"]])
         (log web_asked paid_world)).
Proof.
  cbv zeta. do 2 (split; [reflexivity|]).
  destruct (@translate_strings_one_request stub_backend_strict stub_free
              stub_paid (PyRef 1) (PyRef 2) (PyStr "de") None None paid_world
              eq_refl eq_refl) as [(_ & Hraise & _) _].
  destruct (@translate_strings_one_request stub_backend_strict stub_free
              stub_paid (PyRef 1) (PyRef 2) (PyStr "fr") None None paid_world
              eq_refl eq_refl) as [(Htrace & _ & Hreturn) (_ & _ & Hlazy & _)].
  split; [exact (Hraise (BackendError "unsupported language pair") eq_refl)|].
  split; [exact Htrace|].
  split; [exact (Hreturn (PyRef 0) eq_refl)|].
  exact (Hlazy (PyRef 3) eq_refl eq_refl).
Defined.

Lemma translate_string_one_request_witness :
  let web_asked :=
    GoslateTranslate (PyHandle 1) (PyStr "hello") (PyStr "fr") (PyStr "en") in
  let asked :=
    ClientTranslate (PyHandle 3) (PyStr "hello") (PyStr "fr") (PyStr "en") in
  let refused :=
    ClientTranslate (PyHandle 3) (PyStr "hello") (PyStr "de") (PyStr "es") in
  is_string (PyStr "hello") = true
  ∧ @GoSlateTranslatorService.translate_string stub_backend_strict stub_free
      (PyStr "hello") (PyStr "fr") None empty_world
    = (inr (PyStr "bonjour"), {| heap := []; trace := [web_asked] |})
  ∧ @GoogleAPITranslatorService.translate_string stub_backend_strict stub_paid
      (PyStr "hello") (Some (PyStr "fr")) (Some (PyStr "en")) paid_world
    = (inr (PyStr "bonjour"), log asked paid_world)
  ∧ @GoogleAPITranslatorService.translate_string stub_backend_strict stub_paid
      (PyStr "hello") (Some (PyStr "de")) None paid_world
    = (inl (BackendError "unsupported language pair"), log refused paid_world).
Proof.
  cbv zeta. split; [reflexivity|].
  destruct (@translate_string_one_request stub_backend_strict stub_free
              stub_paid (PyStr "hello") (PyStr "fr") (Some (PyStr "fr"))
              None empty_world eq_refl) as [Hweb _].
  destruct (@translate_string_one_request stub_backend_strict stub_free
              stub_paid (PyStr "hello") (PyStr "fr") (Some (PyStr "fr"))
              (Some (PyStr "en")) paid_world eq_refl) as [_ Hpaid].
  destruct (@translate_string_one_request stub_backend_strict stub_free
              stub_paid (PyStr "hello") (PyStr "fr") (Some (PyStr "de"))
              None paid_world eq_refl) as [_ Hrefused].
  split; [rewrite Hweb; vm_compute; reflexivity|].
  split; [rewrite Hpaid; vm_compute; reflexivity|].
  rewrite Hrefused. vm_compute. reflexivity.
Defined.

Lemma accumulator_only_grows_witness :
  let backend := stub_backend stub_credentials stub_reply_patchy in
  let calls :=
    [TranslateStrings (PyRef 1) (PyStr "fr") None None;
     TranslateString (PyStr "hello") None None;
     TranslateStrings (PyInt 7) (PyStr "fr") None None;
     TranslateStrings (PyRef 2) (PyStr "fr") None None] in
  let w := {| heap := [OList [PyStr "salut"]; OList [PyStr "hi"; PyStr "bye"];
                       OList [PyStr "world"]];
              trace := [] |} in
  @backend_spares backend 0
  ∧ heap w !! 0 = Some (OList [PyStr "salut"])
  ∧ (iterate (PyRef 0) (@after_calls backend stub_paid calls w)).1
    = inr [PyStr "salut"; PyStr "monde"]
  ∧ ∃ more,
      iterate (PyRef 0) (@after_calls backend stub_paid calls w)
      = (inr ([PyStr "salut"] ++ more), @after_calls backend stub_paid calls w).
Proof.
  cbv zeta. split; [apply stub_backend_spares|].
  split; [reflexivity|]. split; [vm_compute; reflexivity|].
  apply (@accumulator_only_grows
           (stub_backend stub_credentials stub_reply_patchy) stub_paid).
  - apply stub_backend_spares.
  - reflexivity.
Defined.

Lemma translate_strings_leaves_argument_witness :
  let backend := stub_backend stub_credentials stub_reply in
  @backend_spares backend 1
  ∧ 1 ≠ GoogleAPITranslatorService.translated_strings stub_paid
  ∧ heap paid_world !! 1 = Some (OList [PyStr "hi"])
  ∧ heap (@GoogleAPITranslatorService.translate_strings backend stub_paid
            (PyRef 1) (PyStr "fr") None None paid_world).2 !! 1
    = Some (OList [PyStr "hi"]).
Proof.
  cbv zeta. split; [apply stub_backend_spares|].
  split; [discriminate|]. split; [reflexivity|].
  apply (@translate_strings_leaves_argument
           (stub_backend stub_credentials stub_reply) stub_paid 1 [PyStr "hi"]
           (PyStr "fr") None None paid_world (stub_backend_spares _ _ 1)).
  - discriminate.
  - reflexivity.
Defined.

Lemma translate_strings_copies_reply_witness :
  let backend := stub_backend ∅ stub_reply in
  let request :=
    GoslateTranslate (PyHandle 1) (PyStr "hi") (PyStr "fr") (PyStr "en") in
  is_Iterable (heap free_world) (PyStr "hi") = true
  ∧ truthy (heap free_world) (PyInt 0) = false
  ∧ @GoSlateTranslatorService.translate_strings backend stub_free (PyStr "hi")
      (PyStr "fr") None (Some (PyInt 0)) free_world
    = (inr (PyRef 3),
       with_heap
         (heap free_world
            ++ [OList [PyStr "s"; PyStr "a"; PyStr "l"; PyStr "u"; PyStr "t"]])
         (log request free_world))
  ∧ PyStr "salut" ≠ PyRef 3.
Proof.
  cbv zeta. do 2 (split; [reflexivity|]).
  apply (@translate_strings_copies_reply (stub_backend ∅ stub_reply) stub_free
           (PyStr "hi") (PyStr "fr") None (Some (PyInt 0)) free_world
           (PyStr "salut") (heap free_world)
           [PyStr "s"; PyStr "a"; PyStr "l"; PyStr "u"; PyStr "t"]);
    try reflexivity.
  intros (l & pending & Hl & _). discriminate Hl.
Defined.

Lemma translate_strings_of_one_string_witness :
  let backend := stub_backend ∅ stub_reply in
  let request :=
    GoslateTranslate (PyHandle 1) (PyStr "hi") (PyStr "fr") (PyStr "en") in
  @goslate_translate backend (PyHandle 1) (PyStr "hi") (PyStr "fr") (PyStr "en")
    (log request empty_world) = (inr (PyStr "salut"), [])
  ∧ @GoSlateTranslatorService.translate_strings backend stub_free (PyStr "hi")
      (PyStr "fr") None None empty_world
    = (inr (PyStr "salut"), {| heap := []; trace := [request] |})
  ∧ @GoSlateTranslatorService.translate_strings backend stub_free (PyStr "hi")
      (PyStr "fr") None (Some (PyBool false)) empty_world
    = (inr (PyRef 0),
       {| heap := [OList [PyStr "s"; PyStr "a"; PyStr "l"; PyStr "u"; PyStr "t"]];
          trace := [request] |}).
Proof.
  cbv zeta. split; [reflexivity|].
  apply (@translate_strings_of_one_string (stub_backend ∅ stub_reply) stub_free
           "hi" "salut" (PyStr "fr") None empty_world [] eq_refl).
Defined.

Lemma translate_strings_web_leaves_argument_witness :
  let backend := stub_backend ∅ stub_reply in
  @web_backend_spares backend 0
  ∧ heap free_world !! 0 = Some (OList [PyStr "hello"; PyStr "world"])
  ∧ heap (@GoSlateTranslatorService.translate_strings backend stub_free
            (PyRef 0) (PyStr "fr") None (Some (PyBool false)) free_world).2 !! 0
    = Some (OList [PyStr "hello"; PyStr "world"]).
Proof.
  cbv zeta. split; [apply stub_web_backend_spares|]. split; [reflexivity|].
  apply (@translate_strings_web_leaves_argument (stub_backend ∅ stub_reply)
           stub_free 0 [PyStr "hello"; PyStr "world"] (PyStr "fr") None
           (Some (PyBool false)) free_world (stub_web_backend_spares _ _ 0)
           eq_refl).
Defined.

Lemma goslate_init_without_package_witness :
  truthy (heap empty_world) (@goslate stub_host_without_packages) = false
  ∧ @GoSlateTranslatorService.__init__ stub_host_without_packages empty_world
    = (inl (AssertionError
              "`GoSlateTranslatorService` requires `goslate` package"),
       empty_world).
Proof.
  split; [reflexivity|].
  apply (@goslate_init_without_package stub_host_without_packages empty_world).
  reflexivity.
Defined.

Lemma init_success_witness :
  let backend := stub_backend stub_credentials stub_reply in
  let info := PyDict {[ "type" := PyStr "service_account" ]} in
  let built :=
    {| heap := [OList []];
       trace := [CredentialsFromInfo info; ClientNew (PyHandle 2)] |} in
  @GoogleAPITranslatorService.__init__ backend empty_world
    = (inr stub_paid, built)
  ∧ ∃ (info' credentials : pyval) (h2 : list obj),
      @settings backend !! GoogleAPITranslatorService.setting_name = Some info'
      ∧ truthy (heap empty_world) info' = true
      ∧ trace built
        = trace empty_world ++ [CredentialsFromInfo info'; ClientNew credentials]
      ∧ GoogleAPITranslatorService.translated_strings stub_paid = length h2
      ∧ heap built = h2 ++ [OList []].
Proof.
  cbv zeta. split; [vm_compute; reflexivity|].
  destruct (@init_success (stub_backend stub_credentials stub_reply) empty_world
              {| heap := [OList []];
                 trace := [CredentialsFromInfo
                             (PyDict {[ "type" := PyStr "service_account" ]});
                           ClientNew (PyHandle 2)] |}
              stub_paid)
    as (_ & _ & info' & credentials & h1 & h2 & Hinfo & Htrue & _ & _ & Htrace
        & Hacc & Hheap).
  - vm_compute. reflexivity.
  - exists info', credentials, h2. repeat split; assumption.
Defined.

Lemma init_import_error_witness :
  @importable stub_host_without_packages "google.cloud.translate_v2" = false
  ∧ ∃ name,
      @GoogleAPITranslatorService.__init__ stub_host_without_packages empty_world
        = (inl (ImportError name), empty_world)
      ∧ @importable stub_host_without_packages name = false.
Proof.
  split; [reflexivity|].
  apply (@init_import_error stub_host_without_packages empty_world).
  left. reflexivity.
Defined.

Lemma translate_strings_on_new_instance_witness :
  let backend := stub_backend stub_credentials stub_reply in
  let w := {| heap := [OList [PyStr "hi"; PyStr "bye"]]; trace := [] |} in
  let built := (@GoogleAPITranslatorService.__init__ backend w).2 in
  let self :=
    {| GoogleAPITranslatorService.translate_client := PyHandle 3;
       GoogleAPITranslatorService.translated_strings := 1 |} in
  let call :=
    @GoogleAPITranslatorService.translate_strings backend self (PyRef 0)
      (PyStr "fr") None None built in
  @GoogleAPITranslatorService.__init__ backend w = (inr self, built)
  ∧ @backend_spares backend 1
  ∧ call.1 = inr (PyRef 1)
  ∧ (iterate (PyRef 1) call.2).1 = inr [PyStr "salut"; PyStr "au revoir"]
  ∧ ∃ new,
      @received backend self (PyRef 0) (PyStr "fr") None built new
      ∧ iterate (PyRef 1) call.2 = (inr new, call.2).
Proof.
  cbv zeta. split; [vm_compute; reflexivity|].
  split; [apply stub_backend_spares|].
  split; [vm_compute; reflexivity|]. split; [vm_compute; reflexivity|].
  apply (@translate_strings_on_new_instance
           (stub_backend stub_credentials stub_reply)
           {| heap := [OList [PyStr "hi"; PyStr "bye"]]; trace := [] |}
           _ _
           {| GoogleAPITranslatorService.translate_client := PyHandle 3;
              GoogleAPITranslatorService.translated_strings := 1 |}
           (PyRef 0) (PyStr "fr") None None (PyRef 1)).
  - vm_compute. reflexivity.
  - apply stub_backend_spares.
  - vm_compute. reflexivity.
Defined.

Lemma translate_strings_reads_the_same_witness :
  let backend := stub_backend ∅ stub_reply in
  let request :=
    GoslateTranslate (PyHandle 1) (PyRef 0) (PyStr "fr") (PyStr "en") in
  let answered :=
    heap free_world ++ [OGen [PyStr "bonjour"; PyStr "monde"]] in
  is_Iterable (heap free_world) (PyRef 0) = true
  ∧ @goslate_translate backend (PyHandle 1) (PyRef 0) (PyStr "fr") (PyStr "en")
      (log request free_world) = (inr (PyRef 3), answered)
  ∧ answered !! 3 = Some (OGen [PyStr "bonjour"; PyStr "monde"])
  ∧ (∃ r w',
       @GoSlateTranslatorService.translate_strings backend stub_free (PyRef 0)
         (PyStr "fr") None (Some (PyStr "")) free_world = (inr r, w')
       ∧ (iterate r w').1 = inr [PyStr "bonjour"; PyStr "monde"])
  ∧ (∃ r w',
       @GoSlateTranslatorService.translate_strings backend stub_free (PyRef 0)
         (PyStr "fr") None (Some (PyInt 1)) free_world = (inr r, w')
       ∧ (iterate r w').1 = inr [PyStr "bonjour"; PyStr "monde"]).
Proof.
  cbv zeta. do 3 (split; [reflexivity|]). split.
  - apply (@translate_strings_reads_the_same (stub_backend ∅ stub_reply)
             stub_free (PyRef 0) (PyStr "fr") None (Some (PyStr "")) free_world
             3 [PyStr "bonjour"; PyStr "monde"]
             (heap free_world ++ [OGen [PyStr "bonjour"; PyStr "monde"]])
             eq_refl eq_refl eq_refl).
  - apply (@translate_strings_reads_the_same (stub_backend ∅ stub_reply)
             stub_free (PyRef 0) (PyStr "fr") None (Some (PyInt 1)) free_world
             3 [PyStr "bonjour"; PyStr "monde"]
             (heap free_world ++ [OGen [PyStr "bonjour"; PyStr "monde"]])
             eq_refl eq_refl eq_refl).
Defined.
